(** * MPU9250 driver: calibration, self-test and magnetometer read-out

    A shallow embedding of [MPU9250.cpp] (class [MPU9250], derived from
    [MPUIMU]).  The register transport and the timing primitive are the
    virtual methods the class calls; they are an interface here
    ([Transport]).  C [float] is IEEE-754 binary32 and C [double] is
    binary64, both through the executable specification of the Standard
    Library ([SpecFloat]), every operation being rounded to the type of its
    operands; [int] is taken to be 32 bits wide. *)

From Stdlib Require Import ZArith List Bool Lia QArith.
From Stdlib Require Import Floats.SpecFloat.
From stdpp Require Import base tactics option list gmap.

Local Open Scope Z_scope.

(** ** Machine integers *)

Module Int.

(** Conversion to [uint8_t]. *)
Definition u8 (z : Z) : Z := z mod 256.

(** Conversion to [int16_t] (two's complement wrap-around). *)
Definition i16 (z : Z) : Z := (z + 32768) mod 65536 - 32768.

(** [((int16_t)hi << 8) | lo] converted to [int16_t]: the two bytes of a
    register pair turned into a signed 16-bit value. *)
Definition word16 (hi lo : Z) : Z := i16 (Z.lor (Z.shiftl hi 8) lo).

(** [a / b] on [int]: C division truncates toward zero. *)
Definition div (a b : Z) : Z := Z.quot a b.

(** [c & ~mask] on a [uint8_t]. *)
Definition clear_bits (c mask : Z) : Z := u8 (Z.land c (Z.lnot mask)).

(** [c | bits] on a [uint8_t]. *)
Definition set_bits (c bits : Z) : Z := u8 (Z.lor c bits).

End Int.

(** ** Floating point *)

Module Fl.

(** [float]: binary32. *)
Definition add : spec_float -> spec_float -> spec_float := SFadd 24 128.
Definition sub : spec_float -> spec_float -> spec_float := SFsub 24 128.
Definition mul : spec_float -> spec_float -> spec_float := SFmul 24 128.
Definition div : spec_float -> spec_float -> spec_float := SFdiv 24 128.
Definition of_int (z : Z) : spec_float := binary_normalize 24 128 z 0 false.

(** [double]: binary64. *)
Definition dsub : spec_float -> spec_float -> spec_float := SFsub 53 1024.
Definition dmul : spec_float -> spec_float -> spec_float := SFmul 53 1024.
Definition ddiv : spec_float -> spec_float -> spec_float := SFdiv 53 1024.
Definition d_of_int (z : Z) : spec_float := binary_normalize 53 1024 z 0 false.

(** Implicit widening of a [float] operand to [double] (exact). *)
Definition to_double (x : spec_float) : spec_float :=
  match x with
  | S754_finite s m e => binary_round 53 1024 s m e
  | _ => x
  end.

(** Narrowing of a [double] to [float] on assignment (round to nearest
    even). *)
Definition of_double (x : spec_float) : spec_float :=
  match x with
  | S754_finite s m e => binary_round 24 128 s m e
  | _ => x
  end.

(** [x >= y] and [x < y]; both are false when an operand is a NaN. *)
Definition ge (x y : spec_float) : bool := SFleb y x.

Definition is_finite (x : spec_float) : bool :=
  match x with
  | S754_finite _ _ _ | S754_zero _ => true
  | _ => false
  end.

(** The rational a finite float denotes (0 for the others). *)
Definition to_Q (x : spec_float) : Q :=
  match x with
  | S754_finite s m e =>
      let n := if s then Z.neg m else Z.pos m in
      if (0 <=? e)%Z then inject_Z (n * 2 ^ e) else Qmake n (Z.to_pos (2 ^ (- e)))
  | _ => 0%Q
  end.

(** [x] is finite and lies in the closed interval [[lo, hi]]. *)
Definition within (lo hi : Q) (x : spec_float) : bool :=
  is_finite x && Qle_bool lo (to_Q x) && Qle_bool (to_Q x) hi.

(** The literal [1.01] of type [double]: the binary64 number nearest to
    101/100. *)
Definition d1_01 : spec_float := ddiv (d_of_int 101) (d_of_int 100).

End Fl.

#[global] Instance spec_float_eq_dec : EqDecision spec_float.
Proof. solve_decision. Defined.

(** ** Data model *)

(** An axis triple (x, y, z): the three-element arrays of the source. *)
Record V3 (A : Type) : Type := mkV3 { vx : A; vy : A; vz : A }.
Arguments mkV3 {A} _ _ _.
Arguments vx {A} _.
Arguments vy {A} _.
Arguments vz {A} _.

Inductive Axis : Type := AxX | AxY | AxZ.

Definition v3_get {A} (j : Axis) (v : V3 A) : A :=
  match j with AxX => vx v | AxY => vy v | AxZ => vz v end.

Definition v3_map {A B} (f : A -> B) (v : V3 A) : V3 B :=
  mkV3 (f (vx v)) (f (vy v)) (f (vz v)).

Definition v3_zip {A B C} (f : A -> B -> C) (u : V3 A) (v : V3 B) : V3 C :=
  mkV3 (f (vx u) (vx v)) (f (vy u) (vy v)) (f (vz u) (vz v)).

Definition v3_list {A} (v : V3 A) : list A := [vx v; vy v; vz v].

(** Modelled from the spec: the header [MPU9250.h] / [MPUIMU.h] is missing;
    the scale selectors are the enumerations of section 3 (accelerometer
    +-2g .. +-16g, gyroscope +-250 .. +-2000 dps, magnetometer 14 or 16
    bits), the magnetometer modes are the two output data rates of section
    4.3, and the error codes are the flat taxonomy of section 7. *)
Inductive Ascale_t : Type := AFS_2G | AFS_4G | AFS_8G | AFS_16G.
Inductive Gscale_t : Type := GFS_250DPS | GFS_500DPS | GFS_1000DPS | GFS_2000DPS.
Inductive Mscale_t : Type := MFS_14BITS | MFS_16BITS.
Inductive Mmode_t : Type := M_8Hz | M_100Hz.
Inductive Error_t : Type := ERROR_NONE | ERROR_IMU_ID | ERROR_MAG_ID | ERROR_SELFTEST.

Definition Ascale_code (a : Ascale_t) : Z :=
  match a with AFS_2G => 0 | AFS_4G => 1 | AFS_8G => 2 | AFS_16G => 3 end.
Definition Gscale_code (g : Gscale_t) : Z :=
  match g with GFS_250DPS => 0 | GFS_500DPS => 1 | GFS_1000DPS => 2 | GFS_2000DPS => 3 end.
(** Bit 4 of CNTL: 0 for 14 bits, 1 for 16 bits. *)
Definition Mscale_code (m : Mscale_t) : Z :=
  match m with MFS_14BITS => 0 | MFS_16BITS => 1 end.
(** Bits 3:0 of CNTL: 0010 for 8 Hz, 0110 for 100 Hz. *)
Definition Mmode_code (m : Mmode_t) : Z :=
  match m with M_8Hz => 2 | M_100Hz => 6 end.

(** The register addresses and bit masks of the missing header, as
    parameters of the development. *)
Class Registers : Type := {
  WHO_AM_I : Z;
  USER_CTRL : Z;
  PWR_MGMT_1 : Z;
  I2C_MST_EN : Z;
  SMPLRT_DIV : Z;
  CONFIG : Z;
  GYRO_CONFIG : Z;
  ACCEL_CONFIG : Z;
  ACCEL_CONFIG2 : Z;
  INT_PIN_CFG : Z;
  INT_ENABLE : Z;
  ACCEL_XOUT_H : Z;
  GYRO_XOUT_H : Z;
  SELF_TEST_X_ACCEL : Z;
  SELF_TEST_Y_ACCEL : Z;
  SELF_TEST_Z_ACCEL : Z;
  SELF_TEST_X_GYRO : Z;
  SELF_TEST_Y_GYRO : Z;
  SELF_TEST_Z_GYRO : Z;
  AK8963_WHO_AM_I : Z;
  AK8963_XOUT_L : Z;
  AK8963_CNTL : Z;
  AK8963_ASAX : Z
}.

(** The fields of the driver object ([MPUIMU] and [MPU9250]). *)
Record MPU9250 : Type := mkMPU9250 {
  _aScale : Ascale_t;
  _gScale : Gscale_t;
  _mRes : spec_float;
  _mScale : Mscale_t;
  _mMode : Mmode_t;
  _sampleRateDivisor : Z;
  _passthru : bool;
  _magCalibration : V3 spec_float;
  _magBias : V3 spec_float;
  _magScale : V3 spec_float
}.

(** Assignments to the fields the methods below write. *)
Definition set_mRes (r : spec_float) (o : MPU9250) : MPU9250 :=
  mkMPU9250 (_aScale o) (_gScale o) r (_mScale o) (_mMode o)
    (_sampleRateDivisor o) (_passthru o) (_magCalibration o) (_magBias o) (_magScale o).

Definition set_mMode (m : Mmode_t) (o : MPU9250) : MPU9250 :=
  mkMPU9250 (_aScale o) (_gScale o) (_mRes o) (_mScale o) m
    (_sampleRateDivisor o) (_passthru o) (_magCalibration o) (_magBias o) (_magScale o).

Definition set_magCalibration (v : V3 spec_float) (o : MPU9250) : MPU9250 :=
  mkMPU9250 (_aScale o) (_gScale o) (_mRes o) (_mScale o) (_mMode o)
    (_sampleRateDivisor o) (_passthru o) v (_magBias o) (_magScale o).

Definition set_magBias (v : V3 spec_float) (o : MPU9250) : MPU9250 :=
  mkMPU9250 (_aScale o) (_gScale o) (_mRes o) (_mScale o) (_mMode o)
    (_sampleRateDivisor o) (_passthru o) (_magCalibration o) v (_magScale o).

Definition set_magScale (v : V3 spec_float) (o : MPU9250) : MPU9250 :=
  mkMPU9250 (_aScale o) (_gScale o) (_mRes o) (_mScale o) (_mMode o)
    (_sampleRateDivisor o) (_passthru o) (_magCalibration o) (_magBias o) v.

Definition Mmode_eqb (a b : Mmode_t) : bool :=
  match a, b with
  | M_8Hz, M_8Hz | M_100Hz, M_100Hz => true
  | _, _ => false
  end.

(** ** Register transport and timing *)

Inductive Chip : Type := MPU | AK8963.

(** One transaction of the driver with its environment. *)
Inductive BusOp : Type :=
  | OpRead (c : Chip) (subAddress : Z) (count : nat)
  | OpWrite (c : Chip) (subAddress : Z) (data : Z)
  | OpDelay (ms : Z).

#[global] Instance Chip_eq_dec : EqDecision Chip.
Proof. solve_decision. Defined.

Definition is_write (o : BusOp) : bool :=
  match o with OpWrite _ _ _ => true | _ => false end.

(** The virtual methods of the class: burst read, single write and the
    blocking delay, over any device state [D]. A burst read fills exactly
    [count] bytes of the caller's buffer. *)
Class Transport (D : Type) : Type := {
  dev_read : Chip -> Z -> nat -> D -> list Z * D;
  dev_write : Chip -> Z -> Z -> D -> D;
  dev_delay : Z -> D -> D;
  dev_read_length : forall c a n d, length (fst (dev_read c a n d)) = n
}.

(** The state a method runs in: the object, the device, and the
    transactions issued so far (oldest first). *)
Record State (D : Type) : Type := mkState {
  self : MPU9250;
  dev : D;
  trace : list BusOp
}.
Arguments mkState {D} _ _ _.
Arguments self {D} _.
Arguments dev {D} _.
Arguments trace {D} _.

Definition M (D A : Type) : Type := State D -> A * State D.

Definition ret {D A} (a : A) : M D A := fun s => (a, s).

Definition bind {D A B} (m : M D A) (k : A -> M D B) : M D B :=
  fun s => let (a, s') := m s in k a s'.

Declare Scope drv_scope.
Delimit Scope drv_scope with drv.
Notation "'let*' x ':=' m 'in' k" := (bind m (fun x => k))
  (at level 10, x pattern, m at level 100, k at level 200) : drv_scope.
Notation "'exec' m 'in' k" := (bind m (fun _ => k))
  (at level 10, m at level 100, k at level 200) : drv_scope.
Local Open Scope drv_scope.

(** [for (i = 0; i < n; i++) acc = body(acc)]. *)
Fixpoint for_loop {D A} (n : nat) (body : A -> M D A) (acc : A) : M D A :=
  match n with
  | O => ret acc
  | S n' => let* acc' := body acc in for_loop n' body acc'
  end.

Definition get_self {D} : M D MPU9250 := fun s => (self s, s).

Definition set_self {D} (o : MPU9250) : M D unit :=
  fun s => (tt, mkState o (dev s) (trace s)).

Section Driver.
Context {D : Type} {T : Transport D} {R : Registers}.

Definition read_bytes (c : Chip) (subAddress : Z) (count : nat) : M D (list Z) :=
  fun s =>
    let (bytes, d') := dev_read c subAddress count (dev s) in
    (map Int.u8 bytes, mkState (self s) d' (trace s ++ [OpRead c subAddress count])).

Definition write_byte (c : Chip) (subAddress data : Z) : M D unit :=
  fun s =>
    (tt, mkState (self s) (dev_write c subAddress (Int.u8 data) (dev s))
           (trace s ++ [OpWrite c subAddress (Int.u8 data)])).

Definition delay (ms : Z) : M D unit :=
  fun s => (tt, mkState (self s) (dev_delay ms (dev s)) (trace s ++ [OpDelay ms])).

Definition readMPURegisters (subAddress : Z) (count : nat) : M D (list Z) :=
  read_bytes MPU subAddress count.

Definition writeMPURegister (subAddress data : Z) : M D unit :=
  write_byte MPU subAddress data.

Definition readAK8963Registers (subAddress : Z) (count : nat) : M D (list Z) :=
  read_bytes AK8963 subAddress count.

Definition writeAK8963Register (subAddress data : Z) : M D unit :=
  write_byte AK8963 subAddress data.

(** Modelled from the spec: [MPUIMU::readMPURegister] is missing;
    [readRegister(addr) -> byte] of section 6, a burst read of one byte
    as [readAK8963Register] below does it. *)
Definition readMPURegister (subAddress : Z) : M D Z :=
  let* buffer := readMPURegisters subAddress 1 in ret (nth 0 buffer 0).

(** [MPU9250::readAK8963Register]. *)
Definition readAK8963Register (subAddress : Z) : M D Z :=
  let* buffer := readAK8963Registers subAddress 1 in ret (nth 0 buffer 0).

(** Modelled from the spec: [MPUIMU::getId] is missing; it reads the
    fixed who-am-I register (section 6). *)
Definition getId : M D Z := readMPURegister WHO_AM_I.

(** [MPU9250::getAK8963CID]. *)
Definition getAK8963CID : M D Z := readAK8963Register AK8963_WHO_AM_I.

Definition when (b : bool) (m : M D unit) : M D unit :=
  if b then m else ret tt.

(** [MPU9250::reset]. *)
Definition reset : M D unit :=
  let* o := get_self in
  exec when (negb (_passthru o)) (writeMPURegister USER_CTRL 0) in
  exec writeMPURegister PWR_MGMT_1 0x80 in
  exec when (negb (_passthru o)) (writeMPURegister USER_CTRL I2C_MST_EN) in
  delay 100.

(** [MPU9250::getMres]. Both cases assign the field [_mRes] and return
    it; the constants are [double] expressions narrowed to [float]. *)
Definition getMres (mscale : Mscale_t) : M D spec_float :=
  let r :=
    match mscale with
    | MFS_14BITS =>
        Fl.of_double
          (Fl.ddiv (Fl.dmul (Fl.d_of_int 10) (Fl.d_of_int 4912)) (Fl.d_of_int 8190))
    | MFS_16BITS =>
        Fl.of_double
          (Fl.ddiv (Fl.dmul (Fl.d_of_int 10) (Fl.d_of_int 4912)) (Fl.d_of_int 32760))
    end in
  let* o := get_self in
  exec set_self (set_mRes r o) in
  ret r.

(** [MPU9250::initMPU6500]. *)
Definition initMPU6500 (ascale : Ascale_t) (gscale : Gscale_t)
    (sampleRateDivisor : Z) (passthru : bool) : M D unit :=
  exec writeMPURegister PWR_MGMT_1 0x80 in
  exec delay 100 in
  exec writeMPURegister PWR_MGMT_1 0x01 in
  exec delay 200 in
  exec when passthru (writeMPURegister CONFIG 0x03) in
  exec writeMPURegister SMPLRT_DIV sampleRateDivisor in
  let* c := readMPURegister GYRO_CONFIG in
  let c := Int.clear_bits c 0x02 in
  let c := Int.clear_bits c 0x18 in
  let c := Int.set_bits c (Z.shiftl (Gscale_code gscale) 3) in
  exec writeMPURegister GYRO_CONFIG c in
  let* c := readMPURegister ACCEL_CONFIG in
  let c := Int.clear_bits c 0x18 in
  let c := Int.set_bits c (Z.shiftl (Ascale_code ascale) 3) in
  exec writeMPURegister ACCEL_CONFIG c in
  let* c := readMPURegister ACCEL_CONFIG2 in
  let c := Int.clear_bits c 0x0F in
  let c := Int.set_bits c 0x03 in
  exec writeMPURegister ACCEL_CONFIG2 c in
  exec (if passthru
        then writeMPURegister INT_PIN_CFG 0x12
        else writeMPURegister USER_CTRL I2C_MST_EN) in
  exec writeMPURegister INT_ENABLE 0x01 in
  delay 100.

(** [MPU9250::readMagData]: seven bytes from XOUT_L, the last one being
    ST2; the destination is written only when bit 0x08 of ST2 is clear. *)
Definition readMagData (destination : V3 Z) : M D (V3 Z) :=
  let* rawData := readAK8963Registers AK8963_XOUT_L 7 in
  let c := nth 6 rawData 0 in
  if Z.land c 0x08 =? 0 then
    ret (mkV3 (Int.word16 (nth 1 rawData 0) (nth 0 rawData 0))
              (Int.word16 (nth 3 rawData 0) (nth 2 rawData 0))
              (Int.word16 (nth 5 rawData 0) (nth 4 rawData 0)))
  else ret destination.

(** [MPU9250::initAK8963]; the result is the out-parameter
    [magCalibration]. *)
Definition initAK8963 (mscale : Mscale_t) (Mmode : Mmode_t) : M D (V3 spec_float) :=
  exec writeAK8963Register AK8963_CNTL 0x00 in
  exec delay 10 in
  exec writeAK8963Register AK8963_CNTL 0x0F in
  exec delay 10 in
  let* rawData := readAK8963Registers AK8963_ASAX 3 in
  let adj (b : Z) :=
    Fl.add (Fl.div (Fl.of_int (b - 128)) (Fl.of_int 256)) (Fl.of_int 1) in
  let magCalibration :=
    mkV3 (adj (nth 0 rawData 0)) (adj (nth 1 rawData 0)) (adj (nth 2 rawData 0)) in
  let* o := get_self in
  exec set_self (set_mMode Mmode (set_magCalibration magCalibration o)) in
  exec writeAK8963Register AK8963_CNTL 0x00 in
  exec delay 10 in
  exec writeAK8963Register AK8963_CNTL
         (Z.lor (Z.shiftl (Mscale_code mscale) 4) (Mmode_code Mmode)) in
  exec delay 10 in
  ret magCalibration.

(** *** Magnetometer calibration *)

(** The inner loop of [calibrateMagnetometer] on one axis. *)
Definition track_max (temp mx : Z) : Z := if mx <? temp then temp else mx.
Definition track_min (temp mn : Z) : Z := if temp <? mn then temp else mn.

(** [sample_count], as the two tests on [_mMode] set it. *)
Definition sample_count (m : Mmode_t) : nat :=
  let n := 0%nat in
  let n := if Mmode_eqb m M_8Hz then 128%nat else n in
  let n := if Mmode_eqb m M_100Hz then 1500%nat else n in
  n.

(** The running extremes and the sample buffer, as locals of the loop. *)
Record MagTrack : Type := mkMagTrack {
  mag_max : V3 Z;
  mag_min : V3 Z;
  mag_temp : V3 Z
}.

Definition mag_track_init : MagTrack :=
  mkMagTrack (mkV3 (-32767) (-32767) (-32767)) (mkV3 32767 32767 32767) (mkV3 0 0 0).

(** One iteration of the sampling loop. *)
Definition mag_sample (m : Mmode_t) (t : MagTrack) : M D MagTrack :=
  let* temp := readMagData (mag_temp t) in
  let mx := v3_zip track_max temp (mag_max t) in
  let mn := v3_zip track_min temp (mag_min t) in
  exec when (Mmode_eqb m M_8Hz) (delay 135) in
  exec when (Mmode_eqb m M_100Hz) (delay 12) in
  ret (mkMagTrack mx mn temp).

(** Hard-iron correction in counts: [(mag_max[j] + mag_min[j])/2]. *)
Definition mag_bias_counts (t : MagTrack) : V3 Z :=
  v3_zip (fun mx mn => Int.div (mx + mn) 2) (mag_max t) (mag_min t).

(** Soft-iron chord length in counts: [(mag_max[j] - mag_min[j])/2]. *)
Definition mag_scale_counts (t : MagTrack) : V3 Z :=
  v3_zip (fun mx mn => Int.div (mx - mn) 2) (mag_max t) (mag_min t).

(** [avg_rad]: the sum of the three chords as a [float], divided by the
    [double] 3.0 and narrowed back. *)
Definition avg_rad (mag_scale : V3 Z) : spec_float :=
  let a := Fl.of_int (vx mag_scale + vy mag_scale + vz mag_scale) in
  Fl.of_double (Fl.ddiv (Fl.to_double a) (Fl.d_of_int 3)).

(** [_magBias[j] = (float) mag_bias[j]*_mRes*_magCalibration[j]]. *)
Definition hard_iron_bias (mag_bias : V3 Z) (mRes : spec_float)
    (magCalibration : V3 spec_float) : V3 spec_float :=
  v3_zip (fun b cal => Fl.mul (Fl.mul (Fl.of_int b) mRes) cal) mag_bias magCalibration.

(** [_magScale[j] = avg_rad/((float)mag_scale[j])]. *)
Definition soft_iron_scale (mag_scale : V3 Z) : V3 spec_float :=
  v3_map (fun sc => Fl.div (avg_rad mag_scale) (Fl.of_int sc)) mag_scale.

(** [MPU9250::calibrateMagnetometer]. *)
Definition calibrateMagnetometer : M D unit :=
  let* o := get_self in
  let* t := for_loop (sample_count (_mMode o)) (mag_sample (_mMode o)) mag_track_init in
  let mag_bias := mag_bias_counts t in
  let* o := get_self in
  exec set_self (set_magBias (hard_iron_bias mag_bias (_mRes o) (_magCalibration o)) o) in
  let mag_scale := mag_scale_counts t in
  let* o := get_self in
  set_self (set_magScale (soft_iron_scale mag_scale) o).

(** [MPU9250::readMagnetometer]; [magCount] is the content of the
    uninitialised local array, the result is [(mx, my, mz)]. *)
Definition readMagnetometer (magCount : V3 Z) : M D (V3 spec_float) :=
  let* magCount := readMagData magCount in
  let* o := get_self in
  let m :=
    v3_zip Fl.sub
      (v3_zip (fun c cal => Fl.mul (Fl.mul (Fl.of_int c) (_mRes o)) cal)
         magCount (_magCalibration o))
      (_magBias o) in
  ret (v3_zip Fl.mul m (_magScale o)).

(** *** Self-test *)

(** The C library's [pow] on [double], and [MPUIMU::calibrate], which is
    not part of this file. *)
Variable pow : spec_float -> spec_float -> spec_float.
Variable calibrate : M D unit.

(** Six data registers read from [subAddress] and turned into three
    signed 16-bit values (high byte first). *)
Definition read_axes (subAddress : Z) : M D (V3 Z) :=
  let* rawData := readMPURegisters subAddress 6 in
  ret (mkV3 (Int.word16 (nth 0 rawData 0) (nth 1 rawData 0))
            (Int.word16 (nth 2 rawData 0) (nth 3 rawData 0))
            (Int.word16 (nth 4 rawData 0) (nth 5 rawData 0))).

(** One iteration of either averaging loop: the accelerometer and the
    gyroscope sums. *)
Definition accumulate (acc : V3 Z * V3 Z) : M D (V3 Z * V3 Z) :=
  let* a := read_axes ACCEL_XOUT_H in
  let* g := read_axes GYRO_XOUT_H in
  ret (v3_zip Z.add (fst acc) a, v3_zip Z.add (snd acc) g).

(** 200 readings summed, then each sum divided by 200. *)
Definition average200 : M D (V3 Z * V3 Z) :=
  let* sums := for_loop 200 accumulate (mkV3 0 0 0, mkV3 0 0 0) in
  ret (v3_map (fun x => Int.div x 200) (fst sums),
       v3_map (fun x => Int.div x 200) (snd sums)).

Definition FS : Z := 0.

(** [(float)(2620/1<<FS)*(pow(1.01, ((float)selfTest[k] - 1.0)))]
    assigned to a [float]. *)
Definition factory_trim (code : Z) : spec_float :=
  Fl.of_double
    (Fl.dmul (Fl.to_double (Fl.of_int (Z.shiftl (Int.div 2620 1) FS)))
       (pow Fl.d1_01 (Fl.dsub (Fl.to_double (Fl.of_int code)) (Fl.d_of_int 1)))).

(** [100.0f*((float)(stAvg - avg))/factoryTrim - 100.0f]. *)
Definition tolerance (stAvg avg : Z) (factoryTrim : spec_float) : spec_float :=
  Fl.sub (Fl.div (Fl.mul (Fl.of_int 100) (Fl.of_int (stAvg - avg))) factoryTrim)
    (Fl.of_int 100).

(** The final loop of [selfTest]. *)
Fixpoint check_tolerances (tolerances : list spec_float) : bool :=
  match tolerances with
  | [] => true
  | t :: rest => if Fl.ge t (Fl.of_int 14) then false else check_tolerances rest
  end.

(** What [selfTest] has measured when it reaches its final loop. *)
Record SelfTestData : Type := mkSelfTestData {
  aAvg : V3 Z;
  gAvg : V3 Z;
  aSTAvg : V3 Z;
  gSTAvg : V3 Z;
  selfTest_codes : list Z;
  factoryTrim : list spec_float;
  tolerances : list spec_float
}.

(** [MPU9250::selfTest] up to the array [tolerances]. *)
Definition selfTest_measure : M D SelfTestData :=
  exec writeMPURegister SMPLRT_DIV 0x00 in
  exec writeMPURegister CONFIG 0x02 in
  exec writeMPURegister GYRO_CONFIG (Z.shiftl 1 FS) in
  exec writeMPURegister ACCEL_CONFIG2 0x02 in
  exec writeMPURegister ACCEL_CONFIG (Z.shiftl 1 FS) in
  let* (aAvg, gAvg) := average200 in
  exec writeMPURegister ACCEL_CONFIG 0xE0 in
  exec writeMPURegister GYRO_CONFIG 0xE0 in
  exec delay 25 in
  let* (aSTAvg, gSTAvg) := average200 in
  exec writeMPURegister ACCEL_CONFIG 0x00 in
  exec writeMPURegister GYRO_CONFIG 0x00 in
  exec delay 25 in
  let* st0 := readMPURegister SELF_TEST_X_ACCEL in
  let* st1 := readMPURegister SELF_TEST_Y_ACCEL in
  let* st2 := readMPURegister SELF_TEST_Z_ACCEL in
  let* st3 := readMPURegister SELF_TEST_X_GYRO in
  let* st4 := readMPURegister SELF_TEST_Y_GYRO in
  let* st5 := readMPURegister SELF_TEST_Z_GYRO in
  let codes := [st0; st1; st2; st3; st4; st5] in
  let ft := map factory_trim codes in
  let tol (i : nat) (stAvg avg : Z) := tolerance stAvg avg (nth i ft S754_nan) in
  ret (mkSelfTestData aAvg gAvg aSTAvg gSTAvg codes ft
         [tol 0%nat (vx aSTAvg) (vx aAvg);
          tol 1%nat (vy aSTAvg) (vy aAvg);
          tol 2%nat (vz aSTAvg) (vz aAvg);
          tol 3%nat (vx gSTAvg) (vx gAvg);
          tol 4%nat (vy gSTAvg) (vy gAvg);
          tol 5%nat (vz gSTAvg) (vz gAvg)]).

(** [MPU9250::selfTest]. *)
Definition selfTest : M D bool :=
  let* m := selfTest_measure in
  ret (check_tolerances (tolerances m)).

(** [MPU9250::runTests]. *)
Definition runTests : M D Error_t :=
  let* id := getId in
  if negb (id =? 0x71) then ret ERROR_IMU_ID else
  exec reset in
  let* ok := selfTest in
  if negb ok then ret ERROR_SELFTEST else
  exec calibrate in
  let* o := get_self in
  exec initMPU6500 (_aScale o) (_gScale o) (_sampleRateDivisor o) (_passthru o) in
  let* cid := getAK8963CID in
  if negb (cid =? 0x48) then ret ERROR_MAG_ID else
  let* o := get_self in
  let* _ := initAK8963 (_mScale o) (_mMode o) in
  ret ERROR_NONE.

End Driver.

(** ** Devices that keep what is written to them *)

(** A transport whose device has a register file that can be inspected:
    a written register holds the byte written, and neither a read nor a
    delay changes what the registers hold. *)
Class RegisterFile (D : Type) {T : Transport D} : Type := {
  peek : Chip -> Z -> D -> Z;
  peek_write_eq : forall c a v d, peek c a (dev_write c a v d) = v;
  peek_write_ne : forall c a v c' a' d,
    (c, a) <> (c', a') -> peek c' a' (dev_write c a v d) = peek c' a' d;
  peek_read : forall c a n c' a' d, peek c' a' (snd (dev_read c a n d)) = peek c' a' d;
  peek_delay : forall ms c' a' d, peek c' a' (dev_delay ms d) = peek c' a' d
}.

(** ** A reference [pow] and the register map of the data sheet *)

Module Ref.

(** The integer a float denotes, when it denotes one. *)
Definition to_Z (x : spec_float) : option Z :=
  match x with
  | S754_zero _ => Some 0
  | S754_finite s m e =>
      let n := if s then Z.neg m else Z.pos m in
      if 0 <=? e then Some (n * 2 ^ e)
      else if n mod 2 ^ (- e) =? 0 then Some (n / 2 ^ (- e)) else None
  | _ => None
  end.

(** [pow] on [double] for a positive finite base and an integral
    exponent, correctly rounded: the exact power of the base is rounded
    once, and for a negative exponent 1 is divided by the exact power and
    the quotient rounded once. [pow(x, 0)] is 1 for every [x]. *)
Definition pow (x y : spec_float) : spec_float :=
  match to_Z y with
  | Some 0 => Fl.d_of_int 1
  | Some (Z.pos n) =>
      match x with
      | S754_finite false m e =>
          binary_normalize 53 1024 (Z.pos (m ^ n)) (e * Z.pos n) false
      | _ => S754_nan
      end
  | Some (Z.neg n) =>
      match x with
      | S754_finite false m e =>
          SFdiv 53 1024 (S754_finite false 1 0) (S754_finite false (m ^ n) (e * Z.pos n))
      | _ => S754_nan
      end
  | None => S754_nan
  end.

(** Register map of the MPU-9250 and of its AK8963 magnetometer. *)
#[export] Instance datasheet : Registers := {|
  WHO_AM_I := 0x75;
  USER_CTRL := 0x6A;
  PWR_MGMT_1 := 0x6B;
  I2C_MST_EN := 0x20;
  SMPLRT_DIV := 0x19;
  CONFIG := 0x1A;
  GYRO_CONFIG := 0x1B;
  ACCEL_CONFIG := 0x1C;
  ACCEL_CONFIG2 := 0x1D;
  INT_PIN_CFG := 0x37;
  INT_ENABLE := 0x38;
  ACCEL_XOUT_H := 0x3B;
  GYRO_XOUT_H := 0x43;
  SELF_TEST_X_ACCEL := 0x0D;
  SELF_TEST_Y_ACCEL := 0x0E;
  SELF_TEST_Z_ACCEL := 0x0F;
  SELF_TEST_X_GYRO := 0x00;
  SELF_TEST_Y_GYRO := 0x01;
  SELF_TEST_Z_GYRO := 0x02;
  AK8963_WHO_AM_I := 0x00;
  AK8963_XOUT_L := 0x03;
  AK8963_CNTL := 0x0A;
  AK8963_ASAX := 0x10
|}.

End Ref.

(** ** A simulated device *)

Module Sim.

(** The two register files, the outputs of the inertial sensors at rest,
    the response the self-test excitation adds to them while one of the
    self-test bits 7:5 of the sensor's configuration register is set, and
    the magnetometer frames (XOUT_L .. ZOUT_H, ST2) still to be
    delivered, one per burst read of XOUT_L; [mag_idle] is delivered once
    they are used up. *)
Record Dev : Type := mkDev {
  mpu_regs : gmap Z Z;
  ak_regs : gmap Z Z;
  accel_rest : V3 Z;
  gyro_rest : V3 Z;
  accel_response : V3 Z;
  gyro_response : V3 Z;
  mag_frames : list (list Z);
  mag_idle : list Z;
  elapsed : Z
}.

Definition reg (m : gmap Z Z) (a : Z) : Z := default 0 (m !! a).

Definition hi_byte (v : Z) : Z := (v mod 65536) / 256.
Definition lo_byte (v : Z) : Z := v mod 256.

(** The six output bytes of a sensor, high byte first. *)
Definition out_bytes (v : V3 Z) : list Z :=
  [hi_byte (vx v); lo_byte (vx v); hi_byte (vy v); lo_byte (vy v);
   hi_byte (vz v); lo_byte (vz v)].

Definition excited (cfg : Z) : bool := negb (Z.land cfg 0xE0 =? 0).

Definition sensor_out (rest response : V3 Z) (cfg : Z) : V3 Z :=
  if excited cfg then v3_zip Z.add rest response else rest.

Definition mpu_byte (d : Dev) (a : Z) : Z :=
  if (0x3B <=? a) && (a <? 0x41) then
    nth (Z.to_nat (a - 0x3B))
      (out_bytes (sensor_out (accel_rest d) (accel_response d) (reg (mpu_regs d) 0x1C))) 0
  else if (0x43 <=? a) && (a <? 0x49) then
    nth (Z.to_nat (a - 0x43))
      (out_bytes (sensor_out (gyro_rest d) (gyro_response d) (reg (mpu_regs d) 0x1B))) 0
  else reg (mpu_regs d) a.

Definition burst (f : Z -> Z) (a : Z) (n : nat) : list Z :=
  map (fun i => f (a + Z.of_nat i)) (seq 0 n).

Definition read (c : Chip) (a : Z) (n : nat) (d : Dev) : list Z * Dev :=
  match c with
  | MPU => (burst (mpu_byte d) a n, d)
  | AK8963 =>
      if a =? 0x03 then
        let frame := hd (mag_idle d) (mag_frames d) in
        (burst (fun i => nth (Z.to_nat i) frame 0) 0 n,
         mkDev (mpu_regs d) (ak_regs d) (accel_rest d) (gyro_rest d)
           (accel_response d) (gyro_response d) (tl (mag_frames d)) (mag_idle d)
           (elapsed d))
      else (burst (reg (ak_regs d)) a n, d)
  end.

Definition write (c : Chip) (a v : Z) (d : Dev) : Dev :=
  match c with
  | MPU =>
      mkDev (<[a := v]> (mpu_regs d)) (ak_regs d) (accel_rest d) (gyro_rest d)
        (accel_response d) (gyro_response d) (mag_frames d) (mag_idle d) (elapsed d)
  | AK8963 =>
      mkDev (mpu_regs d) (<[a := v]> (ak_regs d)) (accel_rest d) (gyro_rest d)
        (accel_response d) (gyro_response d) (mag_frames d) (mag_idle d) (elapsed d)
  end.

Definition wait (ms : Z) (d : Dev) : Dev :=
  mkDev (mpu_regs d) (ak_regs d) (accel_rest d) (gyro_rest d)
    (accel_response d) (gyro_response d) (mag_frames d) (mag_idle d) (elapsed d + ms).

#[export] Instance transport : Transport Dev.
Proof.
  refine {| dev_read := read; dev_write := write; dev_delay := wait |}.
  intros c a n d. unfold read, burst.
  destruct c; [|destruct (a =? 3)]; simpl; rewrite length_map, length_seq; reflexivity.
Defined.

(** What a register of either register file holds. *)
Definition look (c : Chip) (a : Z) (d : Dev) : Z :=
  match c with MPU => reg (mpu_regs d) a | AK8963 => reg (ak_regs d) a end.

#[export] Instance register_file : RegisterFile Dev.
Proof.
  refine {| peek := look |}.
  - intros c a v d. destruct c; unfold look, reg; simpl;
      rewrite lookup_insert_eq; reflexivity.
  - intros c a v c' a' d Hne. destruct c, c'; unfold look, reg; simpl;
      try reflexivity; rewrite lookup_insert_ne; try reflexivity; congruence.
  - intros c a n c' a' d. destruct c; simpl; [reflexivity|].
    destruct (a =? 3); destruct c'; reflexivity.
  - intros ms c' a' d. destruct c'; reflexivity.
Defined.

(** A magnetometer frame: three little-endian counts and ST2. *)
Definition mag_frame (x y z st2 : Z) : list Z :=
  [lo_byte x; hi_byte x; lo_byte y; hi_byte y; lo_byte z; hi_byte z; st2].

(** [n] copies of the frames [fs], one after the other. *)
Fixpoint cycle (n : nat) (fs : list (list Z)) : list (list Z) :=
  match n with O => [] | S n' => fs ++ cycle n' fs end.

(** An object as the constructor leaves it for 16 bits at 8 Hz, with the
    sensitivity adjustment [cal] and no user calibration yet. *)
Definition object (cal : V3 spec_float) : MPU9250 :=
  mkMPU9250 AFS_2G GFS_250DPS
    (Fl.of_double
       (Fl.ddiv (Fl.dmul (Fl.d_of_int 10) (Fl.d_of_int 4912)) (Fl.d_of_int 32760)))
    MFS_16BITS M_8Hz 4 false cal
    (mkV3 (S754_zero false) (S754_zero false) (S754_zero false))
    (mkV3 (Fl.of_int 1) (Fl.of_int 1) (Fl.of_int 1)).

Definition unit_cal : V3 spec_float := mkV3 (Fl.of_int 1) (Fl.of_int 1) (Fl.of_int 1).

(** A device fresh from reset (every configuration register holds 0)
    whose six factory self-test codes are [codes], accelerometer axes
    first. *)
Definition device (who_am_i ak_id : Z) (codes : list Z) (accel_resp gyro_resp : V3 Z)
    (frames : list (list Z)) : Dev :=
  mkDev
    (<[0x75 := who_am_i]>
       (<[0x0D := nth 0 codes 0]> (<[0x0E := nth 1 codes 0]> (<[0x0F := nth 2 codes 0]>
       (<[0x00 := nth 3 codes 0]> (<[0x01 := nth 4 codes 0]> (<[0x02 := nth 5 codes 0]> ∅)))))))
    (<[0x00 := ak_id]> (<[0x10 := 176]> (<[0x11 := 176]> (<[0x12 := 165]> ∅))))
    (mkV3 120 (-340) 16384) (mkV3 5 (-3) 9) accel_resp gyro_resp
    frames (mag_frame 0 0 0 0x10) 0.

Definition start (o : MPU9250) (d : Dev) : State Dev := mkState o d [].

End Sim.

(** * Vocabulary of the properties *)

Section Vocabulary.
Context {D : Type} {T : Transport D} {R : Registers}.

(** [m] leaves the observation [obs] of the state as it is. *)
Definition keeps {X A} (obs : State D -> X) (m : M D A) : Prop :=
  forall s, obs (snd (m s)) = obs s.

(** An observation no read and no delay changes. *)
Definition quiet {X} (obs : State D -> X) : Prop :=
  (forall c a n, keeps obs (read_bytes c a n)) /\ (forall ms, keeps obs (delay ms)).

(** The nine register writes of [selfTest], oldest first. *)
Definition selfTest_writes : list BusOp :=
  [OpWrite MPU SMPLRT_DIV 0; OpWrite MPU CONFIG 2; OpWrite MPU GYRO_CONFIG 1;
   OpWrite MPU ACCEL_CONFIG2 2; OpWrite MPU ACCEL_CONFIG 1;
   OpWrite MPU ACCEL_CONFIG 0xE0; OpWrite MPU GYRO_CONFIG 0xE0;
   OpWrite MPU ACCEL_CONFIG 0; OpWrite MPU GYRO_CONFIG 0].

(** What register [a] of chip [c] holds after [v] is written to
    register [a0] of chip [c0], when it held [x]. *)
Definition after_write (c : Chip) (a : Z) (c0 : Chip) (a0 v x : Z) : Z :=
  if decide ((c0, a0) = (c, a)) then v else x.

(** The state in which [runTests] reads the magnetometer's identity. *)
Definition before_mag_id (calibrate : M D unit) (s : State D) : State D :=
  let s3 := snd (calibrate s) in
  snd (initMPU6500 (_aScale (self s3)) (_gScale (self s3))
         (_sampleRateDivisor (self s3)) (_passthru (self s3)) s3).

(** The conversion of one axis as [readMagnetometer] performs it. *)
Definition mag_physical (raw : Z) (res sens bias scale : spec_float) : spec_float :=
  Fl.mul (Fl.sub (Fl.mul (Fl.mul (Fl.of_int raw) res) sens) bias) scale.

(** The conversion of one axis as the specification words it:
    [raw * resolution - bias], then multiplied by the soft-iron scale and
    by the factory sensitivity. *)
Definition spec_mag_physical (raw : Z) (res sens bias scale : spec_float) : spec_float :=
  Fl.mul (Fl.mul (Fl.sub (Fl.mul (Fl.of_int raw) res) bias) scale) sens.

(** The contents of the sample buffer after each of the [n] reads of the
    sampling loop. *)
Fixpoint mag_observed (n : nat) (m : Mmode_t) (t : MagTrack) (s : State D) : list (V3 Z) :=
  match n with
  | O => []
  | S n' =>
      mag_temp (fst (mag_sample m t s))
        :: mag_observed n' m (fst (mag_sample m t s)) (snd (mag_sample m t s))
  end.

(** The running extremes of one axis, from the initial values of the
    source. *)
Definition running_max (j : Axis) (obs : list (V3 Z)) : Z :=
  fold_left Z.max (map (v3_get j) obs) (-32767).
Definition running_min (j : Axis) (obs : list (V3 Z)) : Z :=
  fold_left Z.min (map (v3_get j) obs) 32767.

(** The samples of a run of [calibrateMagnetometer] and what the loop
    has tracked when it ends. *)
Definition calibration_samples (s : State D) : list (V3 Z) :=
  mag_observed (sample_count (_mMode (self s))) (_mMode (self s)) mag_track_init s.

Definition tracked (s : State D) : MagTrack :=
  fst (for_loop (sample_count (_mMode (self s))) (mag_sample (_mMode (self s)))
         mag_track_init s).

(** The counts of the frame a read from the state [s] delivers, or
    nothing when its ST2 byte reports an overflow. *)
Definition mag_frame_of (s : State D) : option (V3 Z) :=
  let raw := fst (readAK8963Registers AK8963_XOUT_L 7 s) in
  if Z.testbit (nth 6 raw 0) 3 then None
  else Some (mkV3 (Int.word16 (nth 1 raw 0) (nth 0 raw 0))
                  (Int.word16 (nth 3 raw 0) (nth 2 raw 0))
                  (Int.word16 (nth 5 raw 0) (nth 4 raw 0))).

(** What the device delivers at each of the [n] reads of the sampling
    loop. *)
Fixpoint mag_delivered (n : nat) (m : Mmode_t) (t : MagTrack) (s : State D) :
    list (option (V3 Z)) :=
  match n with
  | O => []
  | S n' =>
      mag_frame_of s
        :: mag_delivered n' m (fst (mag_sample m t s)) (snd (mag_sample m t s))
  end.

(** What a buffer that held [prev] holds after each of the frames: a
    frame that is not delivered leaves the previous contents. *)
Fixpoint held_samples (prev : V3 Z) (frames : list (option (V3 Z))) : list (V3 Z) :=
  match frames with
  | [] => []
  | f :: fs => default prev f :: held_samples (default prev f) fs
  end.

(** The frames of a run of [calibrateMagnetometer], and the samples among
    them: the raw counts the device delivered. *)
Definition calibration_frames (s : State D) : list (option (V3 Z)) :=
  mag_delivered (sample_count (_mMode (self s))) (_mMode (self s)) mag_track_init s.

Definition delivered_samples (s : State D) : list (V3 Z) :=
  omap id (calibration_frames s).

(** The maximum and the minimum of an axis over a list of samples. *)
Definition observed_max (j : Axis) (samples : list (V3 Z)) : Z :=
  match map (v3_get j) samples with
  | [] => 0
  | x :: l => fold_left Z.max l x
  end.
Definition observed_min (j : Axis) (samples : list (V3 Z)) : Z :=
  match map (v3_get j) samples with
  | [] => 0
  | x :: l => fold_left Z.min l x
  end.

(** The hard-iron bias and the soft-iron scale as the specification words
    them: from the midpoint and the half-swing of the maximum and the
    minimum of the observed raw counts. *)
Definition spec_midpoint (j : Axis) (samples : list (V3 Z)) : Z :=
  Int.div (observed_max j samples + observed_min j samples) 2.

Definition spec_half_swing (j : Axis) (samples : list (V3 Z)) : Z :=
  Int.div (observed_max j samples - observed_min j samples) 2.

Definition spec_hard_iron_bias (j : Axis) (samples : list (V3 Z))
    (res sens : spec_float) : spec_float :=
  Fl.mul (Fl.mul (Fl.of_int (spec_midpoint j samples)) res) sens.

Definition spec_soft_iron_scale (j : Axis) (samples : list (V3 Z)) : spec_float :=
  Fl.div
    (avg_rad (mkV3 (spec_half_swing AxX samples) (spec_half_swing AxY samples)
                   (spec_half_swing AxZ samples)))
    (Fl.of_int (spec_half_swing j samples)).

(** Every one of the six running sums lies in [[-B, B]]. *)
Definition sums_bounded (B : Z) (acc : V3 Z * V3 Z) : Prop :=
  Forall (fun x => - B <= x <= B) (v3_list (fst acc) ++ v3_list (snd acc)).

End Vocabulary.

(** ** Devices for the runs *)

Import (hints) Ref.
Import (hints) Sim.

(** The object and a few devices: a healthy one (the self-test response of
    every axis equals its factory trim), one whose accelerometer responds
    20% above the trim, one that does not respond at all, one that answers
    the who-am-I read with 0x70, one whose magnetometer answers with 0x00,
    and one whose first self-test code is 101. *)
Definition obj : MPU9250 := Sim.object Sim.unit_cal.

Definition codes1 : list Z := [1; 1; 1; 1; 1; 1].

Definition healthy : Sim.Dev :=
  Sim.device 0x71 0x48 codes1 (mkV3 2620 2620 2620) (mkV3 2620 2620 2620) [].
Definition hot : Sim.Dev :=
  Sim.device 0x71 0x48 codes1 (mkV3 3144 3144 3144) (mkV3 2620 2620 2620) [].
Definition stranger : Sim.Dev :=
  Sim.device 0x70 0x48 codes1 (mkV3 2620 2620 2620) (mkV3 2620 2620 2620) [].
Definition no_mag : Sim.Dev :=
  Sim.device 0x71 0x00 codes1 (mkV3 2620 2620 2620) (mkV3 2620 2620 2620) [].
Definition trim101 : Sim.Dev :=
  Sim.device 0x71 0x48 [101; 1; 1; 1; 1; 1] (mkV3 7087 2620 2620) (mkV3 2620 2620 2620) [].

(** A device whose magnetometer delivers the two frames [f1] and [f2] in
    turn, 64 times, and then the frame [last]. *)
Definition swinging (f1 f2 last : list Z) : Sim.Dev :=
  Sim.device 0x71 0x48 codes1 (mkV3 2620 2620 2620) (mkV3 2620 2620 2620)
    (Sim.cycle 64 [f1; f2] ++ [last]).

(** A device whose magnetometer reports an overflow on the first read and
    then delivers the two frames [fa] and [fb] in turn. *)
Definition first_dropped (fa fb : list Z) : Sim.Dev :=
  Sim.device 0x71 0x48 codes1 (mkV3 2620 2620 2620) (mkV3 2620 2620 2620)
    (Sim.mag_frame 300 300 300 0x18 :: Sim.cycle 64 [fa; fb]).

(** The state after the sensitivity adjustment has been read from the ROM
    of the device [d] and the magnetometer calibrated on it. *)
Definition calibrated (d : Sim.Dev) : State Sim.Dev :=
  snd (calibrateMagnetometer (snd (initAK8963 MFS_16BITS M_8Hz (Sim.start obj d)))).


(** * The other methods of the class *)

(** The remaining register addresses of the missing header, as parameters
    like the first ones. *)
Class MoreRegisters : Type := {
  XG_OFFSET_H : Z;
  XG_OFFSET_L : Z;
  YG_OFFSET_H : Z;
  YG_OFFSET_L : Z;
  ZG_OFFSET_H : Z;
  ZG_OFFSET_L : Z;
  XA_OFFSET_H : Z;
  YA_OFFSET_H : Z;
  ZA_OFFSET_H : Z;
  INT_STATUS : Z;
  MOT_DETECT_CTRL : Z;
  MOT_THR : Z;
  LP_ACCEL_ODR : Z
}.

(** [((int16_t)hi << 8) | lo] as an [int], before any narrowing. *)
Definition pair16 (hi lo : Z) : Z := Z.lor (Z.shiftl hi 8) lo.

(** The resolution [getMres] computes for a scale. *)
Definition mres (mscale : Mscale_t) : spec_float :=
  match mscale with
  | MFS_14BITS =>
      Fl.of_double
        (Fl.ddiv (Fl.dmul (Fl.d_of_int 10) (Fl.d_of_int 4912)) (Fl.d_of_int 8190))
  | MFS_16BITS =>
      Fl.of_double
        (Fl.ddiv (Fl.dmul (Fl.d_of_int 10) (Fl.d_of_int 4912)) (Fl.d_of_int 32760))
  end.

Definition set_mScale (m : Mscale_t) (o : MPU9250) : MPU9250 :=
  mkMPU9250 (_aScale o) (_gScale o) (_mRes o) m (_mMode o)
    (_sampleRateDivisor o) (_passthru o) (_magCalibration o) (_magBias o) (_magScale o).

Definition set_sampleRateDivisor (d : Z) (o : MPU9250) : MPU9250 :=
  mkMPU9250 (_aScale o) (_gScale o) (_mRes o) (_mScale o) (_mMode o)
    d (_passthru o) (_magCalibration o) (_magBias o) (_magScale o).

Definition set_passthru (b : bool) (o : MPU9250) : MPU9250 :=
  mkMPU9250 (_aScale o) (_gScale o) (_mRes o) (_mScale o) (_mMode o)
    (_sampleRateDivisor o) b (_magCalibration o) (_magBias o) (_magScale o).

Section MoreDriver.
Context {D : Type} {T : Transport D} {R : Registers} {R2 : MoreRegisters}.

(** The body of the constructor [MPU9250::MPU9250], run on the object as
    the constructor of [MPUIMU] (not part of this file) leaves it. *)
Definition construct (mscale : Mscale_t) (mmode : Mmode_t) (sampleRateDivisor : Z)
    (passthru : bool) : M D unit :=
  let* r := getMres mscale in
  let* o := get_self in
  exec set_self (set_mRes r o) in
  let* o := get_self in
  exec set_self (set_mScale mscale o) in
  let* o := get_self in
  exec set_self (set_mMode mmode o) in
  let* o := get_self in
  exec set_self (set_sampleRateDivisor sampleRateDivisor o) in
  let* o := get_self in
  set_self (set_passthru passthru o).

(** [MPU9250::pushGyroBiases]; [data] is the twelve-byte array. *)
Definition pushGyroBiases (data : list Z) : M D unit :=
  exec writeMPURegister XG_OFFSET_H (nth 0 data 0) in
  exec writeMPURegister XG_OFFSET_L (nth 1 data 0) in
  exec writeMPURegister YG_OFFSET_H (nth 2 data 0) in
  exec writeMPURegister YG_OFFSET_L (nth 3 data 0) in
  exec writeMPURegister ZG_OFFSET_H (nth 4 data 0) in
  writeMPURegister ZG_OFFSET_L (nth 5 data 0).

(** A burst read of two bytes into [&data[0]]. *)
Definition read_pair (subAddress : Z) (data : list Z) : M D (list Z) :=
  let* b := readMPURegisters subAddress 2 in
  ret (<[1%nat := nth 1 b 0]> (<[0%nat := nth 0 b 0]> data)).

(** [MPU9250::readAccelOffsets]; the result is the array [data] as the
    three reads leave it and [accel_bias_reg]. The value
    [((int16_t)data[0] << 8) | data[1]] is an [int] and is converted to
    [int32_t] as it is. *)
Definition readAccelOffsets (data : list Z) : M D (list Z * V3 Z) :=
  let* data := read_pair XA_OFFSET_H data in
  let x := pair16 (nth 0 data 0) (nth 1 data 0) in
  let* data := read_pair YA_OFFSET_H data in
  let y := pair16 (nth 0 data 0) (nth 1 data 0) in
  let* data := read_pair ZA_OFFSET_H data in
  let z := pair16 (nth 0 data 0) (nth 1 data 0) in
  ret (data, mkV3 x y z).

(** [MPU9250::gyroMagSleep]. *)
Definition gyroMagSleep : M D unit :=
  let* temp := readAK8963Register AK8963_CNTL in
  exec writeAK8963Register AK8963_CNTL (Z.land temp (Z.lnot 0x0F)) in
  let* temp := readMPURegister PWR_MGMT_1 in
  exec writeMPURegister PWR_MGMT_1 (Z.lor temp 0x10) in
  delay 10.

(** [MPU9250::gyroMagWake]. *)
Definition gyroMagWake (mmode : Mmode_t) : M D unit :=
  let* temp := readAK8963Register AK8963_CNTL in
  exec writeAK8963Register AK8963_CNTL (Z.lor temp (Mmode_code mmode)) in
  let* temp := readMPURegister PWR_MGMT_1 in
  exec writeMPURegister PWR_MGMT_1 0x01 in
  delay 10.

(** [MPU9250::accelWakeOnMotion]. *)
Definition accelWakeOnMotion : M D unit :=
  let* c := readMPURegister ACCEL_CONFIG2 in
  let c := Int.clear_bits c 0x0F in
  let c := Int.set_bits c 0x01 in
  exec writeMPURegister ACCEL_CONFIG2 c in
  exec writeMPURegister INT_PIN_CFG 0x12 in
  exec writeMPURegister INT_ENABLE 0x41 in
  exec writeMPURegister MOT_DETECT_CTRL 0xC0 in
  exec writeMPURegister MOT_THR 0x19 in
  exec writeMPURegister LP_ACCEL_ODR 0x02 in
  let* c := readMPURegister PWR_MGMT_1 in
  exec writeMPURegister PWR_MGMT_1 (Z.lor c 0x20) in
  exec gyroMagSleep in
  delay 100.

(** [MPU9250::checkWakeOnMotion]: the [int] [status & 0x40] returned as a
    [bool]. *)
Definition checkWakeOnMotion : M D bool :=
  let* status := readMPURegister INT_STATUS in
  ret (negb (Z.land status 0x40 =? 0)).

End MoreDriver.

(** A register file whose registers, where [plain], read back what they
    hold: a burst read of plain registers returns their contents. *)
Class ReadBack (D : Type) {T : Transport D} {RF : RegisterFile D} : Type := {
  plain : Chip -> Z -> bool;
  read_plain : forall c a n d,
    (forall i, (i < n)%nat -> plain c (a + Z.of_nat i) = true) ->
    fst (dev_read c a n d) = map (fun i => peek c (a + Z.of_nat i) d) (seq 0 n)
}.

(** The simulated device reads back every register but the sensor outputs
    and the magnetometer frame. *)
Definition sim_plain (c : Chip) (a : Z) : bool :=
  match c with
  | MPU => negb ((0x3B <=? a) && (a <? 0x41)) && negb ((0x43 <=? a) && (a <? 0x49))
  | AK8963 => negb (a =? 0x03)
  end.

#[global] Instance sim_read_back : ReadBack Sim.Dev.
Proof.
  refine {| plain := sim_plain |}.
  intros c a n d Hp. destruct c; cbn [dev_read Sim.transport Sim.read].
  - cbn [fst]. unfold Sim.burst. apply map_ext_in. intros i Hi.
    apply in_seq in Hi. specialize (Hp i ltac:(lia)). cbn [sim_plain] in Hp.
    unfold Sim.mpu_byte.
    apply andb_prop in Hp as [H1 H2].
    apply negb_true_iff in H1, H2. rewrite H1, H2. reflexivity.
  - destruct (a =? 3) eqn:Ha.
    + destruct n as [|n]; [reflexivity|].
      specialize (Hp 0%nat ltac:(lia)). cbn [sim_plain] in Hp.
      replace (a + Z.of_nat 0) with a in Hp by lia.
      change 0x03 with 3 in Hp. rewrite Ha in Hp. discriminate Hp.
    + reflexivity.
Defined.

(** The remaining addresses in the register map of the MPU-9250. *)
#[global] Instance datasheet_more : MoreRegisters := {|
  XG_OFFSET_H := 0x13;
  XG_OFFSET_L := 0x14;
  YG_OFFSET_H := 0x15;
  YG_OFFSET_L := 0x16;
  ZG_OFFSET_H := 0x17;
  ZG_OFFSET_L := 0x18;
  XA_OFFSET_H := 0x77;
  YA_OFFSET_H := 0x7A;
  ZA_OFFSET_H := 0x7D;
  INT_STATUS := 0x3A;
  MOT_DETECT_CTRL := 0x69;
  MOT_THR := 0x1F;
  LP_ACCEL_ODR := 0x1E
|}.

(** The simulated device with the MPU register [a] holding [v]. *)
Definition with_reg (a v : Z) (d : Sim.Dev) : Sim.Dev := Sim.write MPU a v d.

(** The simulated device with the AK8963 register [a] holding [v]. *)
Definition with_ak_reg (a v : Z) (d : Sim.Dev) : Sim.Dev := Sim.write AK8963 a v d.

(** ** Devices that may honour the reset bit *)

(** A write to PWR_MGMT_1 with bit 7 set asks the MPU to reset. *)
Definition resets {R : Registers} (c : Chip) (a v : Z) : bool :=
  match c with
  | MPU => (a =? PWR_MGMT_1) && Z.testbit v 7
  | AK8963 => false
  end.

(** A device whose registers can be inspected and of which nothing is
    assumed when it is asked to reset: every other write changes the
    register written and no other, neither a read nor a delay changes a
    register, and a burst read of registers that read back returns what
    they hold. *)
Class ResetFile (D : Type) {T : Transport D} {R : Registers} : Type := {
  content : Chip -> Z -> D -> Z;
  reads_back : Chip -> Z -> bool;
  content_write_eq : forall c a v d,
    resets c a v = false -> content c a (dev_write c a v d) = v;
  content_write_ne : forall c a v c' a' d,
    resets c a v = false -> (c, a) <> (c', a') ->
    content c' a' (dev_write c a v d) = content c' a' d;
  content_read : forall c a n c' a' d,
    content c' a' (snd (dev_read c a n d)) = content c' a' d;
  content_delay : forall ms c' a' d, content c' a' (dev_delay ms d) = content c' a' d;
  content_read_back : forall c a n d,
    (forall i, (i < n)%nat -> reads_back c (a + Z.of_nat i) = true) ->
    fst (dev_read c a n d) = map (fun i => content c (a + Z.of_nat i) d) (seq 0 n)
}.

(** A device that keeps what is written to it, the reset bit included, is
    one of them. *)
#[global] Instance ignores_reset {D : Type} {T : Transport D} {R : Registers}
    {RF : RegisterFile D} {RB : ReadBack D} : ResetFile D.
Proof.
  refine {| content := peek; reads_back := plain |}.
  - intros c a v d _. apply peek_write_eq.
  - intros c a v c' a' d _ Hne. apply peek_write_ne. exact Hne.
  - apply peek_read.
  - apply peek_delay.
  - apply read_plain.
Defined.

(** The simulated device with an MPU that honours the reset bit: the
    registers return to their power-on values, 0x01 in PWR_MGMT_1 and 0x00
    elsewhere, but for the identity, the self-test codes and the
    accelerometer trims, which the factory programmed. *)
Module Resetting.

Record Dev : Type := mkDev { inner : Sim.Dev }.

Definition factory : list Z :=
  [0x00; 0x01; 0x02; 0x0D; 0x0E; 0x0F; 0x75; 0x77; 0x78; 0x7A; 0x7B; 0x7D; 0x7E].

Definition power_on (m : gmap Z Z) : gmap Z Z :=
  <[0x6B := 1]> (list_to_map (map (fun a => (a, Sim.reg m a)) factory)).

Definition reset_mpu (d : Sim.Dev) : Sim.Dev :=
  Sim.mkDev (power_on (Sim.mpu_regs d)) (Sim.ak_regs d) (Sim.accel_rest d) (Sim.gyro_rest d)
    (Sim.accel_response d) (Sim.gyro_response d) (Sim.mag_frames d) (Sim.mag_idle d)
    (Sim.elapsed d).

Definition read (c : Chip) (a : Z) (n : nat) (d : Dev) : list Z * Dev :=
  (fst (Sim.read c a n (inner d)), mkDev (snd (Sim.read c a n (inner d)))).

Definition write (c : Chip) (a v : Z) (d : Dev) : Dev :=
  if resets c a v then mkDev (reset_mpu (inner d)) else mkDev (Sim.write c a v (inner d)).

Definition wait (ms : Z) (d : Dev) : Dev := mkDev (Sim.wait ms (inner d)).

#[export] Instance transport : Transport Dev.
Proof.
  refine {| dev_read := read; dev_write := write; dev_delay := wait |}.
  intros c a n d. unfold read. cbn [fst].
  exact (@dev_read_length Sim.Dev Sim.transport c a n (inner d)).
Defined.

#[export] Instance reset_file : ResetFile Dev.
Proof.
  refine {| content := fun c a d => Sim.look c a (inner d); reads_back := sim_plain |}.
  - intros c a v d Hr. cbn [dev_write transport]. unfold write. rewrite Hr.
    exact (@peek_write_eq Sim.Dev Sim.transport Sim.register_file c a v (inner d)).
  - intros c a v c' a' d Hr Hne. cbn [dev_write transport]. unfold write. rewrite Hr.
    exact (@peek_write_ne Sim.Dev Sim.transport Sim.register_file c a v c' a' (inner d) Hne).
  - intros c a n c' a' d.
    exact (@peek_read Sim.Dev Sim.transport Sim.register_file c a n c' a' (inner d)).
  - intros ms c' a' d.
    exact (@peek_delay Sim.Dev Sim.transport Sim.register_file ms c' a' (inner d)).
  - intros c a n d Hp.
    exact (@read_plain Sim.Dev Sim.transport Sim.register_file sim_read_back c a n (inner d) Hp).
Defined.

Definition start (o : MPU9250) (d : Sim.Dev) : State Dev := mkState o (mkDev d) [].

End Resetting.

Import (hints) Resetting.

(** ** More vocabulary *)

Section MoreVocabulary.
Context {D : Type} {T : Transport D} {R : Registers} {R2 : MoreRegisters}.

(** [m] issues exactly the transactions [ops], whatever the state. *)
Definition appends {A} (ops : list BusOp) (m : M D A) : Prop :=
  forall s, trace (snd (m s)) = trace s ++ ops.

(** The writes of [reset]. *)
Definition reset_writes (passthru : bool) : list BusOp :=
  if passthru then [OpWrite MPU PWR_MGMT_1 0x80]
  else [OpWrite MPU USER_CTRL 0; OpWrite MPU PWR_MGMT_1 0x80;
        OpWrite MPU USER_CTRL (Int.u8 I2C_MST_EN)].

(** The transactions of one averaging loop of [selfTest]. *)
Definition average_reads : list BusOp :=
  concat (repeat [OpRead MPU ACCEL_XOUT_H 6; OpRead MPU GYRO_XOUT_H 6] 200).

(** All the transactions of [selfTest], oldest first. *)
Definition selfTest_trace : list BusOp :=
  [OpWrite MPU SMPLRT_DIV 0; OpWrite MPU CONFIG 2; OpWrite MPU GYRO_CONFIG 1;
   OpWrite MPU ACCEL_CONFIG2 2; OpWrite MPU ACCEL_CONFIG 1]
  ++ average_reads
  ++ [OpWrite MPU ACCEL_CONFIG 0xE0; OpWrite MPU GYRO_CONFIG 0xE0; OpDelay 25]
  ++ average_reads
  ++ [OpWrite MPU ACCEL_CONFIG 0; OpWrite MPU GYRO_CONFIG 0; OpDelay 25;
      OpRead MPU SELF_TEST_X_ACCEL 1; OpRead MPU SELF_TEST_Y_ACCEL 1;
      OpRead MPU SELF_TEST_Z_ACCEL 1; OpRead MPU SELF_TEST_X_GYRO 1;
      OpRead MPU SELF_TEST_Y_GYRO 1; OpRead MPU SELF_TEST_Z_GYRO 1].

(** The delay between two magnetometer samples. *)
Definition sample_delay (m : Mmode_t) : Z :=
  match m with M_8Hz => 135 | M_100Hz => 12 end.

(** The milliseconds a trace spends in [delay]. *)
Definition total_delay (ops : list BusOp) : Z :=
  fold_right (fun o acc => match o with OpDelay ms => ms + acc | _ => acc end) 0 ops.

(** The transactions of one magnetometer sample. *)
Definition sample_ops (m : Mmode_t) : list BusOp :=
  [OpRead AK8963 AK8963_XOUT_L 7; OpDelay (sample_delay m)].

(** The transactions of [reset]. *)
Definition reset_trace (passthru : bool) : list BusOp :=
  reset_writes passthru ++ [OpDelay 100].

(** The writes of [pushGyroBiases]. *)
Definition gyro_bias_writes (data : list Z) : list BusOp :=
  [OpWrite MPU XG_OFFSET_H (Int.u8 (nth 0 data 0));
   OpWrite MPU XG_OFFSET_L (Int.u8 (nth 1 data 0));
   OpWrite MPU YG_OFFSET_H (Int.u8 (nth 2 data 0));
   OpWrite MPU YG_OFFSET_L (Int.u8 (nth 3 data 0));
   OpWrite MPU ZG_OFFSET_H (Int.u8 (nth 4 data 0));
   OpWrite MPU ZG_OFFSET_L (Int.u8 (nth 5 data 0))].



(** The sensitivity adjustment [initAK8963] computes from a ROM byte:
    [(float)(b - 128)/256.0f + 1.0f]. *)
Definition sensitivity_adjustment (b : Z) : spec_float :=
  Fl.add (Fl.div (Fl.of_int (b - 128)) (Fl.of_int 256)) (Fl.of_int 1).

Definition axis_index (j : Axis) : nat :=
  match j with AxX => 0%nat | AxY => 1%nat | AxZ => 2%nat end.

(** The byte [initAK8963] leaves in CNTL. *)
Definition mode_byte (mscale : Mscale_t) (mmode : Mmode_t) : Z :=
  Z.lor (Z.shiftl (Mscale_code mscale) 4) (Mmode_code mmode).

(** The transactions of [initAK8963]. *)
Definition initAK8963_trace (mscale : Mscale_t) (mmode : Mmode_t) : list BusOp :=
  [OpWrite AK8963 AK8963_CNTL 0; OpDelay 10; OpWrite AK8963 AK8963_CNTL 0x0F; OpDelay 10;
   OpRead AK8963 AK8963_ASAX 3; OpWrite AK8963 AK8963_CNTL 0; OpDelay 10;
   OpWrite AK8963 AK8963_CNTL (mode_byte mscale mmode); OpDelay 10].

(** The state in which [initAK8963] reads the ROM. *)
Definition rom_state (s : State D) : State D :=
  snd (delay 10 (snd (writeAK8963Register AK8963_CNTL 0x0F
    (snd (delay 10 (snd (writeAK8963Register AK8963_CNTL 0x00 s))))))).

(** [gyroMagSleep] followed by [gyroMagWake]. *)
Definition sleep_then_wake (mmode : Mmode_t) : M D unit :=
  exec gyroMagSleep in gyroMagWake mmode.

(** The registers [accelWakeOnMotion] writes on the MPU. *)
Definition wake_on_motion_registers : list Z :=
  [ACCEL_CONFIG2; INT_PIN_CFG; INT_ENABLE; MOT_DETECT_CTRL; MOT_THR; LP_ACCEL_ODR;
   PWR_MGMT_1].


(** The resolution of the object is the one of its scale. *)
Definition consistent (o : MPU9250) : Prop := _mRes o = mres (_mScale o).

(** The object but for the two fields [initAK8963] assigns. *)
Definition same_but_calibration (o o' : MPU9250) : Prop :=
  _aScale o' = _aScale o /\ _gScale o' = _gScale o /\ _mRes o' = _mRes o /\
  _mScale o' = _mScale o /\ _sampleRateDivisor o' = _sampleRateDivisor o /\
  _passthru o' = _passthru o /\ _magBias o' = _magBias o /\ _magScale o' = _magScale o.

End MoreVocabulary.

(** * Properties *)

(** ** Integers and floats *)

Lemma u8_range z : 0 <= Int.u8 z < 256.
Proof. unfold Int.u8. apply Z.mod_pos_bound. lia. Qed.

Lemma i16_range z : -32768 <= Int.i16 z <= 32767.
Proof.
  unfold Int.i16. pose proof (Z.mod_pos_bound (z + 32768) 65536 ltac:(lia)). lia.
Qed.

(** Bit 3 decides whether [c & 0x08] is zero. *)
Lemma land_8_testbit c : (Z.land c 8 =? 0) = negb (Z.testbit c 3).
Proof.
  destruct (Z.testbit c 3) eqn:Hb; simpl.
  - apply Z.eqb_neq. intros H0.
    assert (Z.testbit (Z.land c 8) 3 = true) as Ht
      by (rewrite Z.land_spec, Hb; reflexivity).
    rewrite H0 in Ht. rewrite Z.bits_0 in Ht. discriminate.
  - apply Z.eqb_eq. apply Z.bits_inj'. intros n Hn.
    rewrite Z.land_spec, Z.bits_0.
    destruct (Z.eq_dec n 3) as [->|Hne].
    + rewrite Hb. reflexivity.
    + replace 8 with (2 ^ 3) by reflexivity.
      rewrite Z.pow2_bits_eqb by lia.
      replace (3 =? n) with false by (symmetry; apply Z.eqb_neq; lia).
      apply andb_false_r.
Qed.

(** For a low byte below 256 the bitwise or of the source is the sum. *)
Lemma lor_shiftl_8 hi lo : 0 <= lo < 256 -> Z.lor (Z.shiftl hi 8) lo = 256 * hi + lo.
Proof.
  intros Hlo. rewrite Z.shiftl_mul_pow2 by lia.
  rewrite <- Z.lxor_lor, <- Z.add_nocarry_lxor; try (change (2 ^ 8) with 256; lia).
  all: apply Z.bits_inj'; intros n Hn; rewrite Z.land_spec, Z.bits_0;
    destruct (Z.lt_ge_cases n 8) as [Hlt|Hge].
  all: try (rewrite Z.mul_pow2_bits_low by lia; reflexivity).
  all: replace lo with (lo mod 2 ^ 8) by (apply Z.mod_small; change (2 ^ 8) with 256; lia);
    rewrite Z.mod_pow2_bits_high by lia; apply andb_false_r.
Qed.

Lemma word16_bytes hi lo : 0 <= lo < 256 -> Int.word16 hi lo = Int.i16 (lo + 256 * hi).
Proof. intros H. unfold Int.word16. rewrite lor_shiftl_8 by assumption. f_equal. lia. Qed.



(** Dividing by a zero gives an infinity or a NaN, never a number. *)
Lemma div_by_zero_not_finite x s : Fl.is_finite (Fl.div x (S754_zero s)) = false.
Proof. destruct x as [sx|sx| |sx mx ex]; reflexivity. Qed.

(** [(float)code - 1.0], a [double], is [code - 1] for every byte. *)
Lemma byte_minus_one code :
  0 <= code < 256 ->
  Fl.dsub (Fl.to_double (Fl.of_int code)) (Fl.d_of_int 1) = Fl.d_of_int (code - 1).
Proof.
  intros Hc.
  assert (forallb (fun c => bool_decide
            (Fl.dsub (Fl.to_double (Fl.of_int c)) (Fl.d_of_int 1) = Fl.d_of_int (c - 1)))
            (seqZ 0 256) = true) as Hall by (vm_compute; reflexivity).
  rewrite forallb_forall in Hall.
  specialize (Hall code). apply bool_decide_eq_true in Hall; [exact Hall|].
  apply list_elem_of_In, elem_of_seqZ. lia.
Qed.

(** The reference power [1.01^100], evaluated once. *)
Lemma pow_ref_100 :
  Ref.pow Fl.d1_01 (Fl.d_of_int 100) = S754_finite false 6090699277144680 (-51).
Proof. vm_compute. reflexivity. Qed.

(** ** The monad *)

Section Monad.
Context {D : Type}.

Lemma bind_eq {A B} (m : M D A) (k : A -> M D B) s :
  bind m k s = k (fst (m s)) (snd (m s)).
Proof. unfold bind. destruct (m s). reflexivity. Qed.

Lemma keeps_ret {X A} (obs : State D -> X) (a : A) : keeps obs (ret a).
Proof. intros s. reflexivity. Qed.

Lemma keeps_bind {X A B} (obs : State D -> X) (m : M D A) (k : A -> M D B) :
  keeps obs m -> (forall a, keeps obs (k a)) -> keeps obs (bind m k).
Proof. intros Hm Hk s. rewrite bind_eq, Hk, Hm. reflexivity. Qed.

Lemma keeps_for_loop {X A} (obs : State D -> X) n (body : A -> M D A) acc :
  (forall a, keeps obs (body a)) -> keeps obs (for_loop n body acc).
Proof.
  intros Hb. revert acc. induction n as [|n IH]; intros acc; simpl.
  - apply keeps_ret.
  - apply keeps_bind; [apply Hb | intros a; apply IH].
Qed.

End Monad.

Section Quiet.
Context {D : Type} {T : Transport D} {R : Registers}.
Context {X : Type} (obs : State D -> X).

Hypothesis Hq : quiet obs.

Lemma keeps_read_bytes c a n : keeps obs (read_bytes c a n).
Proof. apply Hq. Qed.

Lemma keeps_delay ms : keeps obs (delay ms).
Proof. apply Hq. Qed.

Lemma keeps_when_delay b ms : keeps obs (when b (delay ms)).
Proof. destruct b; [apply keeps_delay | apply keeps_ret]. Qed.

Lemma keeps_readMPURegister a : keeps obs (readMPURegister a).
Proof.
  unfold readMPURegister, readMPURegisters.
  apply keeps_bind; [apply keeps_read_bytes | intros; apply keeps_ret].
Qed.

Lemma keeps_readAK8963Register a : keeps obs (readAK8963Register a).
Proof.
  unfold readAK8963Register, readAK8963Registers.
  apply keeps_bind; [apply keeps_read_bytes | intros; apply keeps_ret].
Qed.

Lemma keeps_readMagData dest : keeps obs (readMagData dest).
Proof.
  unfold readMagData, readAK8963Registers.
  apply keeps_bind; [apply keeps_read_bytes |].
  intros raw. destruct (Z.land (nth 6 raw 0) 8 =? 0); apply keeps_ret.
Qed.

Lemma keeps_mag_sample m t : keeps obs (mag_sample m t).
Proof.
  unfold mag_sample.
  apply keeps_bind; [apply keeps_readMagData | intros temp].
  apply keeps_bind; [apply keeps_when_delay | intros _].
  apply keeps_bind; [apply keeps_when_delay | intros _]. apply keeps_ret.
Qed.

Lemma keeps_mag_loop m n t : keeps obs (for_loop n (mag_sample m) t).
Proof. apply keeps_for_loop. intros a. apply keeps_mag_sample. Qed.

Lemma keeps_read_axes a : keeps obs (read_axes a).
Proof.
  unfold read_axes, readMPURegisters.
  apply keeps_bind; [apply keeps_read_bytes | intros; apply keeps_ret].
Qed.

Lemma keeps_accumulate acc : keeps obs (accumulate acc).
Proof.
  unfold accumulate.
  apply keeps_bind; [apply keeps_read_axes | intros a].
  apply keeps_bind; [apply keeps_read_axes | intros g]. apply keeps_ret.
Qed.

Lemma keeps_average200 : keeps obs average200.
Proof.
  unfold average200. apply keeps_bind.
  - apply keeps_for_loop. intros a. apply keeps_accumulate.
  - intros sums. apply keeps_ret.
Qed.

End Quiet.

Section Observations.
Context {D : Type} {T : Transport D} {R : Registers}.

(** The object, the writes issued so far and, on a register file, every
    register are such observations. *)
Lemma quiet_self : quiet (fun s : State D => self s).
Proof. split; intros; intros s; unfold read_bytes, delay; simpl;
  try destruct (dev_read _ _ _ _); reflexivity. Qed.

Lemma quiet_writes : quiet (fun s : State D => filter is_write (trace s)).
Proof.
  split; intros; intros s; unfold read_bytes, delay; simpl;
    try destruct (dev_read _ _ _ _); simpl;
    rewrite filter_app; simpl; apply app_nil_r.
Qed.

Lemma quiet_peek {RF : RegisterFile D} c a :
  quiet (fun s : State D => peek c a (dev s)).
Proof.
  split; intros; intros s; unfold read_bytes, delay; simpl.
  - pose proof (peek_read c0 a0 n c a (dev s)) as H.
    destruct (dev_read c0 a0 n (dev s)); simpl in *. exact H.
  - apply peek_delay.
Qed.

End Observations.

(** ** Self-test *)

(** Runs [selfTest_measure] symbolically: every bind is resolved and the
    two averaging loops are named by their results. *)
Ltac run_selfTest :=
  repeat (rewrite bind_eq;
          match goal with
          | |- context [average200 ?s0] => destruct (average200 s0) as [[? ?] ?]
          | _ => idtac
          end; cbn [fst snd]).

Section SelfTest.
Context {D : Type} {T : Transport D} {R : Registers}.
Variable pow : spec_float -> spec_float -> spec_float.

Lemma read_axes_range a (s : State D) :
  Forall (fun x => -32768 <= x <= 32767) (v3_list (fst (read_axes a s))).
Proof.
  unfold read_axes. rewrite bind_eq. cbn [fst ret v3_list vx vy vz].
  repeat (apply Forall_cons; split; [apply i16_range|]). apply Forall_nil_2.
Qed.

Lemma accumulate_bounded B acc (s : State D) :
  sums_bounded B acc -> sums_bounded (B + 32768) (fst (accumulate acc s)).
Proof.
  unfold sums_bounded, accumulate. intros Hacc. rewrite !bind_eq. cbn [fst snd ret].
  pose proof (read_axes_range ACCEL_XOUT_H s) as Ha.
  pose proof (read_axes_range GYRO_XOUT_H (snd (read_axes ACCEL_XOUT_H s))) as Hg.
  destruct acc as [[a1 a2 a3] [g1 g2 g3]].
  destruct (fst (read_axes ACCEL_XOUT_H s)) as [x1 x2 x3].
  destruct (fst (read_axes GYRO_XOUT_H (snd (read_axes ACCEL_XOUT_H s)))) as [y1 y2 y3].
  unfold v3_list, v3_zip in *. cbn [fst snd vx vy vz app] in *.
  repeat match goal with
         | H : Forall _ (_ :: _) |- _ => apply Forall_cons in H as [? H]
         end.
  repeat (apply Forall_cons; split; [lia|]). apply Forall_nil_2.
Qed.

(** The sums of the averaging loops stay far inside the range of
    [int32_t]: after [k] of the 200 iterations each is at most
    [32768 * k] in absolute value. *)
Lemma average_sums_in_range k : forall acc (s : State D) B,
  sums_bounded B acc ->
  sums_bounded (B + 32768 * Z.of_nat k) (fst (for_loop k accumulate acc s)).
Proof.
  induction k as [|k IH]; intros acc s B Hacc.
  - cbn [for_loop ret fst]. replace (B + 32768 * Z.of_nat 0) with B by lia. exact Hacc.
  - cbn [for_loop]. rewrite bind_eq.
    replace (B + 32768 * Z.of_nat (S k)) with ((B + 32768) + 32768 * Z.of_nat k) by lia.
    apply IH. apply accumulate_bounded. exact Hacc.
Qed.



(** What [selfTest] has in its arrays when it reaches the final loop:
    six codes, a factory trim for each, and the six percent deviations,
    accelerometer axes first. *)
Lemma selfTest_measure_shape (s : State D) :
  let m := fst (selfTest_measure pow s) in
  length (selfTest_codes m) = 6%nat /\
  factoryTrim m = map (factory_trim pow) (selfTest_codes m) /\
  tolerances m =
    [tolerance (vx (aSTAvg m)) (vx (aAvg m)) (nth 0 (factoryTrim m) S754_nan);
     tolerance (vy (aSTAvg m)) (vy (aAvg m)) (nth 1 (factoryTrim m) S754_nan);
     tolerance (vz (aSTAvg m)) (vz (aAvg m)) (nth 2 (factoryTrim m) S754_nan);
     tolerance (vx (gSTAvg m)) (vx (gAvg m)) (nth 3 (factoryTrim m) S754_nan);
     tolerance (vy (gSTAvg m)) (vy (gAvg m)) (nth 4 (factoryTrim m) S754_nan);
     tolerance (vz (gSTAvg m)) (vz (gAvg m)) (nth 5 (factoryTrim m) S754_nan)].
Proof.
  unfold selfTest_measure.
  run_selfTest.
  unfold ret.
  cbn [fst snd selfTest_codes factoryTrim tolerances aAvg gAvg aSTAvg gSTAvg length].
  repeat split; reflexivity.
Qed.

(** [selfTest] does nothing after the measurement but run the final loop
    over the six deviations. *)
Lemma selfTest_eq (s : State D) :
  selfTest pow s =
    (check_tolerances (tolerances (fst (selfTest_measure pow s))),
     snd (selfTest_measure pow s)).
Proof. unfold selfTest. rewrite bind_eq. reflexivity. Qed.


Lemma readMPURegister_byte a (s : State D) :
  0 <= fst (readMPURegister a s) < 256.
Proof.
  unfold readMPURegister, readMPURegisters, read_bytes. rewrite bind_eq.
  destruct (dev_read MPU a 1 (dev s)) as [[|b bs] d']; cbn [fst snd map nth ret].
  - lia.
  - apply u8_range.
Qed.

Lemma selfTest_codes_bytes (s : State D) :
  Forall (fun c => 0 <= c < 256) (selfTest_codes (fst (selfTest_measure pow s))).
Proof.
  unfold selfTest_measure.
  run_selfTest.
  unfold ret. cbn [fst selfTest_codes].
  repeat (apply Forall_cons; split; [apply readMPURegister_byte|]).
  apply Forall_nil_2.
Qed.

(** The factory trim of a code, with the constant factor and the
    exponent worked out: FS is 0, so the factor is
    [2620 / 2^FS = 2620]. *)
Lemma factory_trim_eq code :
  0 <= code < 256 ->
  factory_trim pow code =
    Fl.of_double
      (Fl.dmul (Fl.d_of_int (2620 / 2 ^ FS)) (pow Fl.d1_01 (Fl.d_of_int (code - 1)))).
Proof. intros Hc. unfold factory_trim. rewrite (byte_minus_one _ Hc). reflexivity. Qed.

(** C2 (amended). In [selfTest] each of the six factory-trim values is
    computed from its trim byte as [(2620 / 2^FS) * 1.01^(trimByte - 1)]
    with FS = 0; trim byte 1 gives exactly 2620 when [pow(x, 0)] is 1, and
    trim byte 101 gives [2620 * 1.01^100], which is about 7086.6, when
    [pow] is within one unit in the last place of the correctly rounded
    power. *)
Theorem factory_trim_values (s : State D) :
  let m := fst (selfTest_measure pow s) in
  let p100 := Ref.pow Fl.d1_01 (Fl.d_of_int 100) in
  (length (selfTest_codes m) = 6%nat /\
   Forall (fun c => 0 <= c < 256) (selfTest_codes m) /\
   factoryTrim m = map (factory_trim pow) (selfTest_codes m)) /\
  (forall code, 0 <= code < 256 ->
     factory_trim pow code =
       Fl.of_double
         (Fl.dmul (Fl.d_of_int (2620 / 2 ^ FS)) (pow Fl.d1_01 (Fl.d_of_int (code - 1))))) /\
  (pow Fl.d1_01 (Fl.d_of_int 0) = Fl.d_of_int 1 ->
     factory_trim pow 1 = Fl.of_int 2620 /\ Qeq (Fl.to_Q (factory_trim pow 1)) 2620) /\
  (In (pow Fl.d1_01 (Fl.d_of_int 100))
      [SFpred 53 1024 p100; p100; SFsucc 53 1024 p100] ->
     Fl.within (70866 # 10) (70867 # 10) (factory_trim pow 101) = true) /\
  (70866 # 10 < 2620 * (101 # 100) ^ 100 /\ 2620 * (101 # 100) ^ 100 < 70867 # 10)%Q.
Proof.
  intros m p100. subst p100. rewrite pow_ref_100.
  split; [|split; [|split; [|split]]].
  - destruct (selfTest_measure_shape s) as (Hlen & Hft & _).
    split; [exact Hlen|]. split; [apply selfTest_codes_bytes | exact Hft].
  - apply factory_trim_eq.
  - intros H0. rewrite factory_trim_eq by lia.
    change (1 - 1) with 0. rewrite H0. vm_compute. split; reflexivity.
  - intros Hin. rewrite factory_trim_eq by lia. change (101 - 1) with 100.
    cbn [In] in Hin. destruct Hin as [<-|[<-|[<-|[]]]]; vm_compute; reflexivity.
  - split; vm_compute; reflexivity.
Qed.

End SelfTest.

(** ** What [selfTest] does to the registers *)

Section SelfTestWrites.
Context {D : Type} {T : Transport D} {R : Registers}.
Variable pow : spec_float -> spec_float -> spec_float.

Section Observation.
Context {X : Type} (obs : State D -> X) (upd : Chip -> Z -> Z -> X -> X).
Hypothesis Hq : quiet obs.
Hypothesis Hw : forall c a v s,
  obs (snd (write_byte c a v s)) = upd c a (Int.u8 v) (obs s).

(** An observation that only writes change sees [selfTest] as its nine
    writes, in the order of the source. *)
Lemma selfTest_measure_observed (s : State D) :
  obs (snd (selfTest_measure pow s)) =
    upd MPU GYRO_CONFIG 0 (upd MPU ACCEL_CONFIG 0
      (upd MPU GYRO_CONFIG 0xE0 (upd MPU ACCEL_CONFIG 0xE0
        (upd MPU ACCEL_CONFIG 1 (upd MPU ACCEL_CONFIG2 2
          (upd MPU GYRO_CONFIG 1 (upd MPU CONFIG 2
            (upd MPU SMPLRT_DIV 0 (obs s))))))))).
Proof.
  unfold selfTest_measure.
  repeat (rewrite bind_eq;
          try match goal with
              | |- context [average200 ?s0] =>
                  let H := fresh "Hav" in
                  let E := fresh "Eav" in
                  pose proof (keeps_average200 obs Hq s0) as H;
                  destruct (average200 s0) as [[? ?] ?] eqn:E;
                  cbn [snd] in H
              end; cbn [fst snd]).
  unfold ret. cbn [snd].
  rewrite !(keeps_readMPURegister obs Hq), (keeps_delay obs Hq).
  unfold writeMPURegister in *.
  rewrite !Hw, Hav0, (keeps_delay obs Hq), !Hw, Hav, !Hw.
  reflexivity.
Qed.

End Observation.

Lemma selfTest_trace_writes (s : State D) :
  filter is_write (trace (snd (selfTest pow s))) =
    filter is_write (trace s) ++ selfTest_writes.
Proof.
  rewrite selfTest_eq. cbn [snd].
  rewrite (selfTest_measure_observed
             (fun s => filter is_write (trace s))
             (fun c a v l => l ++ [OpWrite c a v]) quiet_writes).
  - rewrite <- !app_assoc. reflexivity.
  - intros c a v s0. unfold write_byte. cbn [snd trace].
    rewrite filter_app. reflexivity.
Qed.

Context {RF : RegisterFile D}.

Lemma peek_write_byte c0 a0 v c a (s : State D) :
  peek c a (dev (snd (write_byte c0 a0 v s))) =
    after_write c a c0 a0 (Int.u8 v) (peek c a (dev s)).
Proof.
  unfold write_byte, after_write. cbn [snd dev]. case_decide as Heq.
  - inversion Heq; subst. apply peek_write_eq.
  - apply peek_write_ne. exact Heq.
Qed.

Lemma selfTest_peek c a (s : State D) :
  peek c a (dev (snd (selfTest pow s))) =
    after_write c a MPU GYRO_CONFIG 0 (after_write c a MPU ACCEL_CONFIG 0
      (after_write c a MPU GYRO_CONFIG 0xE0 (after_write c a MPU ACCEL_CONFIG 0xE0
        (after_write c a MPU ACCEL_CONFIG 1 (after_write c a MPU ACCEL_CONFIG2 2
          (after_write c a MPU GYRO_CONFIG 1 (after_write c a MPU CONFIG 2
            (after_write c a MPU SMPLRT_DIV 0 (peek c a (dev s)))))))))).
Proof.
  rewrite selfTest_eq. cbn [snd].
  apply (selfTest_measure_observed (fun s => peek c a (dev s))
           (after_write c a) (quiet_peek c a)).
  intros c0 a0 v s0. apply peek_write_byte.
Qed.

(** C3 (amended). [selfTest] does not put back what the registers held:
    when it returns, SMPLRT_DIV, GYRO_CONFIG and ACCEL_CONFIG hold 0x00
    and CONFIG and ACCEL_CONFIG2 hold 0x02, whatever they held before;
    every other register holds what it held before, and the writes
    issued are the nine writes of the source. *)
Theorem selfTest_registers_after (s : State D) :
  NoDup [SMPLRT_DIV; CONFIG; GYRO_CONFIG; ACCEL_CONFIG; ACCEL_CONFIG2] ->
  let s' := snd (selfTest pow s) in
  (peek MPU SMPLRT_DIV (dev s') = 0 /\
   peek MPU CONFIG (dev s') = 2 /\
   peek MPU GYRO_CONFIG (dev s') = 0 /\
   peek MPU ACCEL_CONFIG (dev s') = 0 /\
   peek MPU ACCEL_CONFIG2 (dev s') = 2) /\
  (forall c a,
     c = AK8963 \/ ~ In a [SMPLRT_DIV; CONFIG; GYRO_CONFIG; ACCEL_CONFIG; ACCEL_CONFIG2] ->
     peek c a (dev s') = peek c a (dev s)) /\
  filter is_write (trace s') = filter is_write (trace s) ++ selfTest_writes.
Proof.
  intros Hnd s'. subst s'.
  assert (SMPLRT_DIV <> CONFIG /\ SMPLRT_DIV <> GYRO_CONFIG /\
          SMPLRT_DIV <> ACCEL_CONFIG /\ SMPLRT_DIV <> ACCEL_CONFIG2 /\
          CONFIG <> GYRO_CONFIG /\ CONFIG <> ACCEL_CONFIG /\ CONFIG <> ACCEL_CONFIG2 /\
          GYRO_CONFIG <> ACCEL_CONFIG /\ GYRO_CONFIG <> ACCEL_CONFIG2 /\
          ACCEL_CONFIG <> ACCEL_CONFIG2) as Hd.
  { repeat (apply NoDup_cons in Hnd as [? Hnd]).
    repeat match goal with
           | H : _ ∉ _ :: _ |- _ => apply not_elem_of_cons in H as [? ?]
           end.
    repeat split; assumption. }
  destruct Hd as (? & ? & ? & ? & ? & ? & ? & ? & ? & ?).
  split; [|split].
  - repeat split; rewrite selfTest_peek; unfold after_write;
      repeat (case_decide; simplify_eq); try reflexivity; congruence.
  - intros c a Hca. rewrite selfTest_peek. unfold after_write. cbn [In] in Hca.
    repeat (case_decide; simplify_eq); try reflexivity;
      destruct Hca as [?|Hca]; try discriminate; exfalso; apply Hca; tauto.
  - apply selfTest_trace_writes.
Qed.

End SelfTestWrites.

(** ** The start-up sequence *)

Section RunTests.
Context {D : Type} {T : Transport D} {R : Registers}.
Variable pow : spec_float -> spec_float -> spec_float.
Variable calibrate : M D unit.

Lemma runTests_eq (s : State D) :
  let r1 := getId s in
  let r2 := selfTest pow (snd (reset (snd r1))) in
  let r3 := getAK8963CID (before_mag_id calibrate (snd r2)) in
  runTests pow calibrate s =
    if negb (fst r1 =? 0x71) then (ERROR_IMU_ID, snd r1)
    else if negb (fst r2) then (ERROR_SELFTEST, snd r2)
    else if negb (fst r3 =? 0x48) then (ERROR_MAG_ID, snd r3)
    else (ERROR_NONE,
          snd (initAK8963 (_mScale (self (snd r3))) (_mMode (self (snd r3))) (snd r3))).
Proof.
  intros r1 r2 r3. subst r1 r2 r3. unfold runTests, before_mag_id. cbv zeta.
  rewrite bind_eq. destruct (negb (fst (getId s) =? 113)); [reflexivity|].
  rewrite bind_eq, bind_eq.
  destruct (negb (fst (selfTest pow (snd (reset (snd (getId s))))))); [reflexivity|].
  rewrite bind_eq, bind_eq. unfold get_self. cbn [fst snd].
  rewrite bind_eq, bind_eq.
  match goal with
  | |- context [getAK8963CID ?s0] => destruct (negb (fst (getAK8963CID s0) =? 72))
  end; [reflexivity|].
  rewrite bind_eq. cbn [fst snd]. rewrite bind_eq. reflexivity.
Qed.

(** C4. [runTests] returns ERROR_IMU_ID exactly when the who-am-I read
    differs from 0x71; otherwise ERROR_SELFTEST exactly when [selfTest]
    fails; otherwise ERROR_MAG_ID exactly when the magnetometer's
    who-am-I read differs from 0x48; otherwise ERROR_NONE. Each error
    ends the sequence: [runTests] returns in the state the failed check
    left, with nothing retried. *)
Theorem runTests_outcome (s : State D) :
  let r1 := getId s in
  let r2 := selfTest pow (snd (reset (snd r1))) in
  let r3 := getAK8963CID (before_mag_id calibrate (snd r2)) in
  let r := runTests pow calibrate s in
  (fst r = ERROR_IMU_ID <-> fst r1 <> 0x71) /\
  (fst r1 = 0x71 -> (fst r = ERROR_SELFTEST <-> fst r2 = false)) /\
  (fst r1 = 0x71 -> fst r2 = true -> (fst r = ERROR_MAG_ID <-> fst r3 <> 0x48)) /\
  (fst r1 = 0x71 -> fst r2 = true -> fst r3 = 0x48 -> fst r = ERROR_NONE) /\
  (fst r = ERROR_IMU_ID -> snd r = snd r1) /\
  (fst r = ERROR_SELFTEST -> snd r = snd r2) /\
  (fst r = ERROR_MAG_ID -> snd r = snd r3).
Proof.
  intros r1 r2 r3 r. subst r. rewrite runTests_eq. fold r1 r2 r3.
  destruct (Z.eqb_spec (fst r1) 0x71) as [H1|H1]; cbn [negb fst snd].
  2:{ repeat split; intros; try congruence; try reflexivity. }
  destruct (fst r2) eqn:H2; cbn [negb fst snd].
  2:{ repeat split; intros; try congruence; try reflexivity. }
  destruct (Z.eqb_spec (fst r3) 0x48) as [H3|H3]; cbn [negb fst snd].
  - repeat split; intros; try congruence; try reflexivity.
  - repeat split; intros; try congruence; try reflexivity.
Qed.

(** C10. When the first who-am-I read differs from 0x71, [runTests]
    returns ERROR_IMU_ID having issued that one read and nothing else: no
    write and no delay, the object is untouched, and on a device that
    keeps its registers every register holds what it held. *)
Theorem runTests_wrong_id_writes_nothing (s : State D) :
  fst (getId s) <> 0x71 ->
  let r := runTests pow calibrate s in
  fst r = ERROR_IMU_ID /\
  trace (snd r) = trace s ++ [OpRead MPU WHO_AM_I 1] /\
  filter is_write (trace (snd r)) = filter is_write (trace s) /\
  self (snd r) = self s /\
  (forall (RF : RegisterFile D) c a, peek c a (dev (snd r)) = peek c a (dev s)).
Proof.
  intros Hid r. subst r. rewrite runTests_eq. cbv zeta.
  destruct (Z.eqb_spec (fst (getId s)) 0x71) as [H1|H1]; [contradiction|].
  cbn [negb fst snd]. split; [reflexivity|].
  split; [|split; [|split]].
  - unfold getId, readMPURegister, readMPURegisters, read_bytes. rewrite bind_eq.
    destruct (dev_read MPU WHO_AM_I 1 (dev s)); reflexivity.
  - apply (keeps_readMPURegister _ quiet_writes).
  - apply (keeps_readMPURegister _ quiet_self).
  - intros RF c a. apply (keeps_readMPURegister _ (quiet_peek c a)).
Qed.

End RunTests.

(** ** Magnetometer *)

Section Magnetometer.
Context {D : Type} {T : Transport D} {R : Registers}.

Lemma nth_u8_range i (l : list Z) : 0 <= nth i (map Int.u8 l) 0 < 256.
Proof.
  destruct (nth_in_or_default i (map Int.u8 l) 0) as [Hin | Heq]; [|rewrite Heq; lia].
  apply in_map_iff in Hin as (x & <- & _). apply u8_range.
Qed.

Lemma read_bytes_spec c a n (s : State D) :
  let raw := fst (read_bytes c a n s) in
  length raw = n /\
  (forall i, 0 <= nth i raw 0 < 256) /\
  trace (snd (read_bytes c a n s)) = trace s ++ [OpRead c a n] /\
  self (snd (read_bytes c a n s)) = self s.
Proof.
  unfold read_bytes. pose proof (dev_read_length c a n (dev s)) as Hlen.
  destruct (dev_read c a n (dev s)) as [bytes d']. cbn [fst snd trace self] in *.
  rewrite length_map. repeat split; try assumption; apply nth_u8_range.
Qed.

(** C6. [readMagData] reads seven bytes, the seventh being ST2. If bit
    0x08 of ST2 is set the destination is returned as it was; if the bit
    is clear the destination receives the three little-endian signed
    16-bit values. Either way the call returns a buffer and its only
    transaction is the one burst read: nothing reports the dropped
    sample. *)
Theorem readMagData_overflow (destination : V3 Z) (s : State D) :
  let raw := fst (readAK8963Registers AK8963_XOUT_L 7 s) in
  let s' := snd (readAK8963Registers AK8963_XOUT_L 7 s) in
  let ST2 := nth 6 raw 0 in
  length raw = 7%nat /\
  trace s' = trace s ++ [OpRead AK8963 AK8963_XOUT_L 7] /\
  (Z.testbit ST2 3 = true -> readMagData destination s = (destination, s')) /\
  (Z.testbit ST2 3 = false ->
     readMagData destination s =
       (mkV3 (Int.i16 (nth 0 raw 0 + 256 * nth 1 raw 0))
             (Int.i16 (nth 2 raw 0 + 256 * nth 3 raw 0))
             (Int.i16 (nth 4 raw 0 + 256 * nth 5 raw 0)), s')).
Proof.
  intros raw s' ST2.
  destruct (read_bytes_spec AK8963 AK8963_XOUT_L 7 s) as (Hlen & Hb & Htr & _).
  fold (readAK8963Registers AK8963_XOUT_L 7 s) in Hlen, Hb, Htr. fold raw in Hlen, Hb.
  split; [exact Hlen|]. split; [exact Htr|].
  unfold readMagData. rewrite bind_eq. fold raw s' ST2.
  change 0x08 with 8. rewrite land_8_testbit.
  split; intros Hbit; rewrite Hbit; cbn [negb]; [reflexivity|].
  rewrite !word16_bytes by apply Hb. reflexivity.
Qed.

(** C5 (amended). For every magnetometer reading, each axis is converted
    as [(raw * resolution * sensitivity - bias) * scale]: the factory
    sensitivity multiplies the raw term before the bias is subtracted,
    and the soft-iron scale multiplies the difference. *)
Theorem readMagnetometer_conversion (magCount : V3 Z) (s : State D) :
  let raw := fst (readMagData magCount s) in
  let o := self s in
  snd (readMagnetometer magCount s) = snd (readMagData magCount s) /\
  forall j,
    v3_get j (fst (readMagnetometer magCount s)) =
      mag_physical (v3_get j raw) (_mRes o) (v3_get j (_magCalibration o))
        (v3_get j (_magBias o)) (v3_get j (_magScale o)).
Proof.
  intros raw o. unfold readMagnetometer. rewrite !bind_eq.
  unfold get_self, ret. cbn [fst snd].
  rewrite (keeps_readMagData _ quiet_self magCount s).
  split; [reflexivity|]. intros [| |]; reflexivity.
Qed.

(** *** Calibration *)

Lemma mag_sample_fst m t (s : State D) :
  fst (mag_sample m t s) =
    let temp := fst (readMagData (mag_temp t) s) in
    mkMagTrack (v3_zip track_max temp (mag_max t)) (v3_zip track_min temp (mag_min t)) temp.
Proof. unfold mag_sample. rewrite !bind_eq. reflexivity. Qed.

Lemma track_max_eq temp mx : track_max temp mx = Z.max mx temp.
Proof. unfold track_max. destruct (Z.ltb_spec mx temp); lia. Qed.

Lemma track_min_eq temp mn : track_min temp mn = Z.min mn temp.
Proof. unfold track_min. destruct (Z.ltb_spec temp mn); lia. Qed.

Lemma mag_loop_track n m : forall t (s : State D) j,
  let t' := fst (for_loop n (mag_sample m) t s) in
  v3_get j (mag_max t') =
    fold_left Z.max (map (v3_get j) (mag_observed n m t s)) (v3_get j (mag_max t)) /\
  v3_get j (mag_min t') =
    fold_left Z.min (map (v3_get j) (mag_observed n m t s)) (v3_get j (mag_min t)).
Proof.
  induction n as [|n IH]; intros t s j; cbn [for_loop mag_observed map fold_left].
  - split; reflexivity.
  - rewrite bind_eq. cbv zeta.
    destruct (IH (fst (mag_sample m t s)) (snd (mag_sample m t s)) j) as [Hmx Hmn].
    cbv zeta in Hmx, Hmn. rewrite Hmx, Hmn.
    rewrite mag_sample_fst. cbv zeta. cbn [mag_max mag_min mag_temp].
    split; f_equal; destruct j; cbn [v3_get v3_zip vx vy vz];
      first [apply track_max_eq | apply track_min_eq].
Qed.

Lemma mag_observed_length n m : forall t (s : State D),
  length (mag_observed n m t s) = n.
Proof. induction n as [|n IH]; intros t s; cbn [mag_observed length]; [|rewrite IH]; reflexivity. Qed.

Lemma fold_max_bounds (l : list Z) : forall a,
  a <= fold_left Z.max l a /\
  Forall (fun v => v <= fold_left Z.max l a) l /\
  (fold_left Z.max l a = a \/ In (fold_left Z.max l a) l).
Proof.
  induction l as [|x l IH]; intros a; cbn [fold_left].
  - repeat split; [lia | constructor | left; reflexivity].
  - destruct (IH (Z.max a x)) as (Hge & Hall & Hatt). repeat split.
    + lia.
    + constructor; [lia | exact Hall].
    + destruct Hatt as [Heq|Hin]; [|right; right; exact Hin].
      rewrite Heq. destruct (Z.max_spec a x) as [[_ ->]|[_ ->]];
        [right; left; reflexivity | left; reflexivity].
Qed.

Lemma fold_min_bounds (l : list Z) : forall a,
  fold_left Z.min l a <= a /\
  Forall (fun v => fold_left Z.min l a <= v) l /\
  (fold_left Z.min l a = a \/ In (fold_left Z.min l a) l).
Proof.
  induction l as [|x l IH]; intros a; cbn [fold_left].
  - repeat split; [lia | constructor | left; reflexivity].
  - destruct (IH (Z.min a x)) as (Hge & Hall & Hatt). repeat split.
    + lia.
    + constructor; [lia | exact Hall].
    + destruct Hatt as [Heq|Hin]; [|right; right; exact Hin].
      rewrite Heq. destruct (Z.min_spec a x) as [[_ ->]|[_ ->]];
        [left; reflexivity | right; left; reflexivity].
Qed.

Lemma tracked_extremes (s : State D) j :
  v3_get j (mag_max (tracked s)) = running_max j (calibration_samples s) /\
  v3_get j (mag_min (tracked s)) = running_min j (calibration_samples s).
Proof.
  unfold tracked, running_max, running_min, calibration_samples.
  destruct (mag_loop_track (sample_count (_mMode (self s))) (_mMode (self s))
              mag_track_init s j) as [Hmx Hmn].
  cbv zeta in Hmx, Hmn. rewrite Hmx, Hmn. destruct j; split; reflexivity.
Qed.

Lemma calibrateMagnetometer_self (s : State D) :
  self (snd (calibrateMagnetometer s)) =
    set_magScale (soft_iron_scale (mag_scale_counts (tracked s)))
      (set_magBias
         (hard_iron_bias (mag_bias_counts (tracked s)) (_mRes (self s))
            (_magCalibration (self s)))
         (self s)).
Proof.
  unfold calibrateMagnetometer, tracked. rewrite !bind_eq.
  unfold get_self, set_self. cbn [fst snd self].
  rewrite !(keeps_mag_loop _ quiet_self). reflexivity.
Qed.

Lemma calibrateMagnetometer_magBias (s : State D) j :
  v3_get j (_magBias (self (snd (calibrateMagnetometer s)))) =
    Fl.mul
      (Fl.mul
         (Fl.of_int
            (Int.div (running_max j (calibration_samples s)
                      + running_min j (calibration_samples s)) 2))
         (_mRes (self s)))
      (v3_get j (_magCalibration (self s))).
Proof.
  rewrite calibrateMagnetometer_self. cbn [_magBias set_magScale set_magBias].
  destruct (tracked_extremes s j) as [<- <-].
  unfold hard_iron_bias, mag_bias_counts. destruct j; reflexivity.
Qed.

Lemma mag_scale_counts_get (s : State D) j :
  v3_get j (mag_scale_counts (tracked s)) =
    Int.div (running_max j (calibration_samples s)
             - running_min j (calibration_samples s)) 2.
Proof.
  destruct (tracked_extremes s j) as [<- <-].
  unfold mag_scale_counts. destruct j; reflexivity.
Qed.

Lemma calibrateMagnetometer_magScale (s : State D) j :
  v3_get j (_magScale (self (snd (calibrateMagnetometer s)))) =
    Fl.div (avg_rad (mag_scale_counts (tracked s)))
      (Fl.of_int (v3_get j (mag_scale_counts (tracked s)))).
Proof.
  rewrite calibrateMagnetometer_self. cbn [_magScale set_magScale].
  unfold soft_iron_scale. destruct j; reflexivity.
Qed.

Lemma readMagData_fst destination (s : State D) :
  fst (readMagData destination s) =
    let raw := fst (readAK8963Registers AK8963_XOUT_L 7 s) in
    if Z.testbit (nth 6 raw 0) 3 then destination
    else mkV3 (Int.word16 (nth 1 raw 0) (nth 0 raw 0))
              (Int.word16 (nth 3 raw 0) (nth 2 raw 0))
              (Int.word16 (nth 5 raw 0) (nth 4 raw 0)).
Proof.
  unfold readMagData. rewrite bind_eq. cbv zeta. change 0x08 with 8.
  rewrite land_8_testbit.
  destruct (Z.testbit (nth 6 (fst (readAK8963Registers AK8963_XOUT_L 7 s)) 0) 3);
    reflexivity.
Qed.

(** The sample buffer holds, after each read, the frame delivered or else
    what it held before. *)
Lemma mag_observed_held n m : forall t (s : State D),
  mag_observed n m t s = held_samples (mag_temp t) (mag_delivered n m t s).
Proof.
  induction n as [|n IH]; intros t s; cbn [mag_observed mag_delivered held_samples];
    [reflexivity|].
  assert (mag_temp (fst (mag_sample m t s)) = default (mag_temp t) (mag_frame_of s)) as Hd.
  { rewrite mag_sample_fst. cbv zeta. cbn [mag_temp]. rewrite readMagData_fst.
    unfold mag_frame_of. cbv zeta.
    destruct (Z.testbit (nth 6 (fst (readAK8963Registers AK8963_XOUT_L 7 s)) 0) 3);
      reflexivity. }
  rewrite IH, Hd. reflexivity.
Qed.

Lemma held_samples_delivered frames : forall prev,
  Forall is_Some frames -> held_samples prev frames = omap id frames.
Proof.
  induction frames as [|f fs IH]; intros prev Hall; [reflexivity|].
  apply Forall_cons in Hall as [[v ->] Hfs].
  change (held_samples prev (Some v :: fs)) with (v :: held_samples v fs).
  rewrite (IH v Hfs). reflexivity.
Qed.

Lemma fold_max_from (l : list Z) : forall a x,
  fold_left Z.max l (Z.max a x) = Z.max a (fold_left Z.max l x).
Proof.
  induction l as [|y l IH]; intros a x; cbn [fold_left]; [reflexivity|].
  rewrite <- IH. f_equal. lia.
Qed.

Lemma fold_min_from (l : list Z) : forall a x,
  fold_left Z.min l (Z.min a x) = Z.min a (fold_left Z.min l x).
Proof.
  induction l as [|y l IH]; intros a x; cbn [fold_left]; [reflexivity|].
  rewrite <- IH. f_equal. lia.
Qed.

(** The running extremes of the source against the extremes of the
    list: the minimum is the same, the maximum is never below the initial
    -32767. *)
Lemma running_observed j (obs : list (V3 Z)) :
  obs <> [] -> v3_get j (hd (mkV3 0 0 0) obs) <= 32767 ->
  running_max j obs = Z.max (-32767) (observed_max j obs) /\
  running_min j obs = observed_min j obs.
Proof.
  destruct obs as [|x l]; [congruence|]. intros _ Hx.
  unfold running_max, running_min, observed_max, observed_min.
  cbn [map fold_left hd] in *. rewrite fold_max_from, fold_min_from.
  split; [reflexivity|].
  destruct (fold_min_bounds (map (v3_get j) l) (v3_get j x)) as (Hle & _). lia.
Qed.

Lemma mag_observed_head n m t (s : State D) j :
  v3_get j (mag_temp t) <= 32767 ->
  mag_observed (S n) m t s <> [] /\
  v3_get j (hd (mkV3 0 0 0) (mag_observed (S n) m t s)) <= 32767.
Proof.
  intros Ht. cbn [mag_observed hd]. split; [discriminate|].
  rewrite mag_sample_fst. cbv zeta. cbn [mag_temp]. rewrite readMagData_fst. cbv zeta.
  destruct (Z.testbit (nth 6 (fst (readAK8963Registers AK8963_XOUT_L 7 s)) 0) 3);
    [exact Ht|].
  destruct j; cbn [v3_get vx vy vz]; unfold Int.word16; apply i16_range.
Qed.

(** The buffer contents of a run against the frames the device
    delivered. *)
Lemma calibration_samples_delivered (s : State D) :
  let obs := calibration_samples s in
  obs = held_samples (mkV3 0 0 0) (calibration_frames s) /\
  (Forall is_Some (calibration_frames s) -> obs = delivered_samples s) /\
  (forall j,
     running_max j obs = Z.max (-32767) (observed_max j obs) /\
     running_min j obs = observed_min j obs).
Proof.
  cbv zeta.
  assert (calibration_samples s = held_samples (mkV3 0 0 0) (calibration_frames s)) as Hheld
    by apply mag_observed_held.
  split; [exact Hheld|]. split.
  - intros Hall. rewrite Hheld. apply held_samples_delivered. exact Hall.
  - intros j.
    assert (exists n, sample_count (_mMode (self s)) = S n) as [n Hn]
      by (destruct (_mMode (self s)); eexists; reflexivity).
    unfold calibration_samples. rewrite Hn.
    apply running_observed; apply (mag_observed_head n _ mag_track_init s j);
      destruct j; cbn [mag_track_init mag_temp v3_get vx vy vz]; lia.
Qed.

(** C9 (amended). [calibrateMagnetometer] sets the hard-iron bias of each
    axis to the midpoint [(max + min)/2] of its running extremes, converted
    by multiplying it by the resolution and by the axis's factory
    sensitivity adjustment; in counts, extremes +100 and -100 give 0, and
    extremes 150 and 50 give 100. The running extremes bound every content
    of the sample buffer and are one of them, or else still the initial
    value of the source. The buffer holds, after each read, the frame
    delivered or else what it held before, (0, 0, 0) at first; when every
    read delivers a frame its contents are the observed raw counts, and the
    running minimum is then their minimum and the running maximum their
    maximum or the initial -32767, whichever is larger. *)
Theorem calibrateMagnetometer_hard_iron (s : State D) :
  let o := self s in
  let obs := calibration_samples s in
  let mid j := Int.div (running_max j obs + running_min j obs) 2 in
  let bias j := v3_get j (_magBias (self (snd (calibrateMagnetometer s)))) in
  length obs = sample_count (_mMode o) /\
  (forall j, Forall (fun v => running_min j obs <= v3_get j v <= running_max j obs) obs) /\
  (forall j,
     (running_max j obs = -32767 \/ In (running_max j obs) (map (v3_get j) obs)) /\
     (running_min j obs = 32767 \/ In (running_min j obs) (map (v3_get j) obs))) /\
  (forall j,
     bias j = Fl.mul (Fl.mul (Fl.of_int (mid j)) (_mRes o)) (v3_get j (_magCalibration o))) /\
  (forall j, running_max j obs = 100 -> running_min j obs = -100 -> mid j = 0) /\
  (forall j, running_max j obs = 150 -> running_min j obs = 50 -> mid j = 100) /\
  obs = held_samples (mkV3 0 0 0) (calibration_frames s) /\
  (Forall is_Some (calibration_frames s) -> obs = delivered_samples s) /\
  (forall j,
     running_max j obs = Z.max (-32767) (observed_max j obs) /\
     running_min j obs = observed_min j obs).
Proof.
  intros o obs mid bias. split; [apply mag_observed_length|].
  split; [|split; [|split; [|split; [|split]]]].
  - intros j. unfold running_min, running_max.
    destruct (fold_max_bounds (map (v3_get j) obs) (-32767)) as (_ & Hmx & _).
    destruct (fold_min_bounds (map (v3_get j) obs) 32767) as (_ & Hmn & _).
    rewrite Forall_map in Hmx, Hmn. rewrite Forall_forall in *.
    intros v Hv. split; [apply Hmn | apply Hmx]; exact Hv.
  - intros j. unfold running_min, running_max. split.
    + apply fold_max_bounds.
    + apply fold_min_bounds.
  - intros j. apply calibrateMagnetometer_magBias.
  - intros j Hmx Hmn. subst mid. cbv beta. rewrite Hmx, Hmn. reflexivity.
  - intros j Hmx Hmn. subst mid. cbv beta. rewrite Hmx, Hmn. reflexivity.
  - apply calibration_samples_delivered.
Qed.

(** C7 (amended). [calibrateMagnetometer] sets the soft-iron scale of
    each axis to the average of the three half-swings divided by the
    half-swing of the axis, a half-swing being [(max - min)/2] of the
    running extremes. For half-swings (100, 100, 100) the scales are
    (1, 1, 1); for (100, 200, 100) the average is 133.33 and the scales are
    (1.333, 0.667, 1.333), to the digits given. The running extremes are
    taken over the contents of the sample buffer, which holds after each
    read the frame delivered or else what it held before, (0, 0, 0) at
    first; when every read delivers a frame they are the minimum of the
    observed raw counts and their maximum or the initial -32767, whichever
    is larger. *)
Theorem calibrateMagnetometer_soft_iron (s : State D) :
  let obs := calibration_samples s in
  let half j := Int.div (running_max j obs - running_min j obs) 2 in
  let avg :=
    Fl.of_double
      (Fl.ddiv (Fl.to_double (Fl.of_int (half AxX + half AxY + half AxZ)))
         (Fl.d_of_int 3)) in
  let scale j := v3_get j (_magScale (self (snd (calibrateMagnetometer s)))) in
  (forall j, scale j = Fl.div avg (Fl.of_int (half j))) /\
  (half AxX = 100 -> half AxY = 100 -> half AxZ = 100 ->
     avg = Fl.of_int 100 /\ forall j, scale j = Fl.of_int 1) /\
  (half AxX = 100 -> half AxY = 200 -> half AxZ = 100 ->
     Fl.within (133325 # 1000) (133335 # 1000) avg = true /\
     Fl.within (13325 # 10000) (13335 # 10000) (scale AxX) = true /\
     Fl.within (6665 # 10000) (6675 # 10000) (scale AxY) = true /\
     Fl.within (13325 # 10000) (13335 # 10000) (scale AxZ) = true) /\
  obs = held_samples (mkV3 0 0 0) (calibration_frames s) /\
  (Forall is_Some (calibration_frames s) -> obs = delivered_samples s) /\
  (forall j,
     running_max j obs = Z.max (-32767) (observed_max j obs) /\
     running_min j obs = observed_min j obs).
Proof.
  intros obs half avg scale.
  assert (forall j, scale j = Fl.div avg (Fl.of_int (half j))) as Hscale.
  { intros j. subst scale avg half obs. cbv beta.
    rewrite calibrateMagnetometer_magScale. unfold avg_rad.
    rewrite <- !mag_scale_counts_get. destruct j; reflexivity. }
  split; [exact Hscale|]. split; [|split; [|apply calibration_samples_delivered]].
  - intros Hx Hy Hz.
    assert (avg = Fl.of_int 100) as Havg
      by (subst avg; rewrite Hx, Hy, Hz; vm_compute; reflexivity).
    split; [exact Havg|]. intros j. rewrite Hscale, Havg.
    destruct j; [rewrite Hx | rewrite Hy | rewrite Hz]; vm_compute; reflexivity.
  - intros Hx Hy Hz.
    assert (avg = Fl.of_double (Fl.ddiv (Fl.to_double (Fl.of_int 400)) (Fl.d_of_int 3)))
      as Havg by (subst avg; rewrite Hx, Hy, Hz; reflexivity).
    rewrite !Hscale, Hx, Hy, Hz, Havg. vm_compute. repeat split; reflexivity.
Qed.

(** C8. Nothing guards the soft-iron computation against a zero swing:
    whenever the tracked maximum of an axis equals its tracked minimum,
    the half-swing of the axis is 0 and its scale is the quotient of a
    division by the float zero, an infinity or a NaN. *)
Theorem calibrateMagnetometer_zero_swing (s : State D) (j : Axis) :
  let obs := calibration_samples s in
  let half k := Int.div (running_max k obs - running_min k obs) 2 in
  let scale := v3_get j (_magScale (self (snd (calibrateMagnetometer s)))) in
  running_max j obs = running_min j obs ->
  half j = 0 /\
  Fl.of_int (half j) = S754_zero false /\
  scale = Fl.div (avg_rad (mkV3 (half AxX) (half AxY) (half AxZ))) (S754_zero false) /\
  Fl.is_finite scale = false.
Proof.
  intros obs half scale Heq.
  assert (half j = 0) as Hh by (subst half; cbv beta; rewrite Heq, Z.sub_diag; reflexivity).
  assert (scale =
          Fl.div (avg_rad (mkV3 (half AxX) (half AxY) (half AxZ))) (S754_zero false)) as Hs.
  { subst scale. rewrite calibrateMagnetometer_magScale.
    rewrite (mag_scale_counts_get s j). fold obs. fold (half j). rewrite Hh.
    f_equal. f_equal. subst half obs. cbv beta.
    rewrite <- !mag_scale_counts_get. reflexivity. }
  split; [exact Hh|]. split; [rewrite Hh; reflexivity|]. split; [exact Hs|].
  rewrite Hs. apply div_by_zero_not_finite.
Qed.

End Magnetometer.

(** * Runs on the simulated device *)



(** With the code 101 on the first axis the factory trim of that axis is
    7086.6..., more than 35 away from 7121.9. *)
Lemma factory_trim_101_is_not_7121_9 :
  let m := fst (selfTest_measure Ref.pow (Sim.start obj trim101)) in
  nth 0 (selfTest_codes m) 0 = 101 /\
  Fl.within (71209 # 10 - 35) (71209 # 10 + 35) (nth 0 (factoryTrim m) S754_nan) = false /\
  Fl.within (70866 # 10) (70867 # 10) (nth 0 (factoryTrim m) S754_nan) = true.
Proof.
  cbv zeta.
  assert (selfTest_codes (fst (selfTest_measure Ref.pow (Sim.start obj trim101))) =
            [101; 1; 1; 1; 1; 1] /\
          factoryTrim (fst (selfTest_measure Ref.pow (Sim.start obj trim101))) =
            S754_finite false 14513382 (-11) :: repeat (Fl.of_int 2620) 5) as [-> ->]
    by (vm_compute; split; reflexivity).
  cbn [nth]. repeat split; vm_compute; reflexivity.
Qed.

Lemma factory_trim_values_witness :
  factory_trim Ref.pow 1 = Fl.of_int 2620 /\
  Fl.within (70866 # 10) (70867 # 10) (factory_trim Ref.pow 101) = true.
Proof.
  pose proof (factory_trim_values Ref.pow (Sim.start obj healthy)) as H. cbv zeta in H.
  destruct H as (_ & _ & H1 & H101 & _). split.
  - apply H1. vm_compute. reflexivity.
  - apply H101. right. left. reflexivity.
Defined.

(** On a device fresh from reset CONFIG holds 0x00 before [selfTest] and
    0x02 after it. *)
Lemma selfTest_does_not_restore :
  let s := Sim.start obj healthy in
  ~ (forall r, In r [SMPLRT_DIV; CONFIG; GYRO_CONFIG; ACCEL_CONFIG; ACCEL_CONFIG2] ->
       peek MPU r (dev (snd (selfTest Ref.pow s))) = peek MPU r (dev s)).
Proof.
  intros s H. specialize (H CONFIG (or_intror (or_introl eq_refl))).
  vm_compute in H. discriminate H.
Qed.

Lemma selfTest_registers_after_witness :
  let s' := snd (selfTest Ref.pow (Sim.start obj healthy)) in
  peek MPU CONFIG (dev s') = 2 /\ peek MPU ACCEL_CONFIG2 (dev s') = 2 /\
  peek MPU GYRO_CONFIG (dev s') = 0.
Proof.
  assert (NoDup [SMPLRT_DIV; CONFIG; GYRO_CONFIG; ACCEL_CONFIG; ACCEL_CONFIG2]) as Hnd
    by (refine (bool_decide_unpack _ _); vm_compute; exact I).
  pose proof (selfTest_registers_after Ref.pow (Sim.start obj healthy) Hnd) as H.
  cbv zeta in H. destruct H as ((_ & Hc & Hg & _ & Ha2) & _). cbv zeta.
  split; [exact Hc|]. split; [exact Ha2 | exact Hg].
Defined.

Lemma runTests_outcome_witness :
  fst (runTests Ref.pow (ret tt) (Sim.start obj stranger)) = ERROR_IMU_ID /\
  fst (runTests Ref.pow (ret tt) (Sim.start obj hot)) = ERROR_SELFTEST /\
  fst (runTests Ref.pow (ret tt) (Sim.start obj no_mag)) = ERROR_MAG_ID /\
  fst (runTests Ref.pow (ret tt) (Sim.start obj healthy)) = ERROR_NONE.
Proof.
  split; [|split; [|split]].
  - pose proof (runTests_outcome Ref.pow (ret tt) (Sim.start obj stranger)) as H.
    cbv zeta in H. destruct H as (Hid & _). apply Hid. vm_compute. discriminate.
  - pose proof (runTests_outcome Ref.pow (ret tt) (Sim.start obj hot)) as H.
    cbv zeta in H. destruct H as (_ & Hst & _). apply Hst; vm_compute; reflexivity.
  - pose proof (runTests_outcome Ref.pow (ret tt) (Sim.start obj no_mag)) as H.
    cbv zeta in H. destruct H as (_ & _ & Hmag & _).
    apply Hmag; vm_compute; try reflexivity. discriminate.
  - pose proof (runTests_outcome Ref.pow (ret tt) (Sim.start obj healthy)) as H.
    cbv zeta in H. destruct H as (_ & _ & _ & Hok & _).
    apply Hok; vm_compute; reflexivity.
Defined.

Lemma runTests_wrong_id_writes_nothing_witness :
  let r := runTests Ref.pow (ret tt) (Sim.start obj stranger) in
  fst r = ERROR_IMU_ID /\ trace (snd r) = [OpRead MPU WHO_AM_I 1] /\
  dev (snd r) = stranger.
Proof.
  assert (fst (getId (Sim.start obj stranger)) <> 0x71) as Hid
    by (vm_compute; discriminate).
  pose proof (runTests_wrong_id_writes_nothing Ref.pow (ret tt) (Sim.start obj stranger) Hid)
    as H.
  cbv zeta in H. destruct H as (He & Htr & _). cbv zeta.
  split; [exact He|]. split; [exact Htr|]. vm_compute. reflexivity.
Defined.

(** A frame with the overflow bit of ST2 set is dropped; a frame without
    it is stored. *)
Lemma readMagData_overflow_witness :
  let ovf := swinging (Sim.mag_frame 300 (-2) 5 0x18) (Sim.mag_frame 0 0 0 0x10)
               (Sim.mag_frame 0 0 0 0x10) in
  let ok := swinging (Sim.mag_frame 300 (-2) 5 0x10) (Sim.mag_frame 0 0 0 0x10)
              (Sim.mag_frame 0 0 0 0x10) in
  fst (readMagData (mkV3 7 8 9) (Sim.start obj ovf)) = mkV3 7 8 9 /\
  fst (readMagData (mkV3 7 8 9) (Sim.start obj ok)) = mkV3 300 (-2) 5.
Proof.
  intros ovf ok. split.
  - pose proof (readMagData_overflow (mkV3 7 8 9) (Sim.start obj ovf)) as H.
    cbv zeta in H. destruct H as (_ & _ & Hset & _).
    rewrite Hset by (vm_compute; reflexivity). reflexivity.
  - pose proof (readMagData_overflow (mkV3 7 8 9) (Sim.start obj ok)) as H.
    cbv zeta in H. destruct H as (_ & _ & _ & Hclear).
    rewrite Hclear by (vm_compute; reflexivity). vm_compute. reflexivity.
Defined.

(** A sample at the centre of the swing reads as no field at all, while
    the conversion as the specification words it gives about -33.4. *)
Lemma readMagnetometer_is_not_spec_formula :
  let s := calibrated (swinging (Sim.mag_frame 300 300 300 0x10)
                         (Sim.mag_frame (-100) (-100) (-100) 0x10)
                         (Sim.mag_frame 100 100 100 0x10)) in
  let o := self s in
  let raw := fst (readMagData (mkV3 0 0 0) s) in
  raw = mkV3 100 100 100 /\
  v3_get AxX (fst (readMagnetometer (mkV3 0 0 0) s)) = S754_zero false /\
  Fl.within (-34 # 1) (-33 # 1)
    (spec_mag_physical (v3_get AxX raw) (_mRes o) (v3_get AxX (_magCalibration o))
       (v3_get AxX (_magBias o)) (v3_get AxX (_magScale o))) = true /\
  v3_get AxX (fst (readMagnetometer (mkV3 0 0 0) s)) <>
    spec_mag_physical (v3_get AxX raw) (_mRes o) (v3_get AxX (_magCalibration o))
      (v3_get AxX (_magBias o)) (v3_get AxX (_magScale o)).
Proof.
  cbv zeta. repeat split; try (vm_compute; reflexivity).
  vm_compute. discriminate.
Qed.

Lemma calibrateMagnetometer_soft_iron_witness :
  let round := calibrated (swinging (Sim.mag_frame 100 100 100 0x10)
                             (Sim.mag_frame (-100) (-100) (-100) 0x10)
                             (Sim.mag_frame 0 0 0 0x10)) in
  let oval := calibrated (swinging (Sim.mag_frame 100 200 100 0x10)
                            (Sim.mag_frame (-100) (-200) (-100) 0x10)
                            (Sim.mag_frame 0 0 0 0x10)) in
  _magScale (self round) = mkV3 (Fl.of_int 1) (Fl.of_int 1) (Fl.of_int 1) /\
  Fl.within (13325 # 10000) (13335 # 10000) (vx (_magScale (self oval))) = true /\
  Fl.within (6665 # 10000) (6675 # 10000) (vy (_magScale (self oval))) = true /\
  Fl.within (13325 # 10000) (13335 # 10000) (vz (_magScale (self oval))) = true.
Proof.
  intros round oval. subst round oval. unfold calibrated. split.
  - match goal with
    | |- context [calibrateMagnetometer ?s] =>
        pose proof (calibrateMagnetometer_soft_iron s) as H
    end.
    cbv zeta in H. destruct H as (_ & H100 & _).
    specialize (H100 ltac:(vm_compute; reflexivity) ltac:(vm_compute; reflexivity)
                  ltac:(vm_compute; reflexivity)).
    destruct H100 as (_ & Hsc).
    pose proof (Hsc AxX) as Hx. pose proof (Hsc AxY) as Hy. pose proof (Hsc AxZ) as Hz.
    cbn [v3_get] in Hx, Hy, Hz.
    match goal with
    | |- ?v = _ => destruct v as [x y z]; cbn [vx vy vz] in Hx, Hy, Hz
    end.
    rewrite Hx, Hy, Hz. reflexivity.
  - match goal with
    | |- context [calibrateMagnetometer ?s] =>
        pose proof (calibrateMagnetometer_soft_iron s) as H
    end.
    cbv zeta in H. destruct H as (_ & _ & H200 & _).
    specialize (H200 ltac:(vm_compute; reflexivity) ltac:(vm_compute; reflexivity)
                  ltac:(vm_compute; reflexivity)).
    destruct H200 as (_ & Hx & Hy & Hz).
    cbn [v3_get] in Hx, Hy, Hz. repeat split; assumption.
Defined.

(** The first read reports an overflow and the 127 others deliver
    200, 400 and 200, 600 in turn: the half-swings of the observed raw
    counts are (100, 200, 100), for which the scales would be (1.333,
    0.667, 1.333), but the (0, 0, 0) the buffer held at the first read is
    tracked as a sample, the half-swings the code computes are (200, 300,
    200) and the scales are about (1.167, 0.778, 1.167). *)
Lemma calibrateMagnetometer_scale_counts_a_dropped_frame :
  let s := snd (initAK8963 MFS_16BITS M_8Hz
                  (Sim.start obj (first_dropped (Sim.mag_frame 200 200 200 0x10)
                                    (Sim.mag_frame 400 600 400 0x10)))) in
  let scale := _magScale (self (snd (calibrateMagnetometer s))) in
  let samples := delivered_samples s in
  samples = mkV3 200 200 200 :: concat (repeat [mkV3 400 600 400; mkV3 200 200 200] 63) /\
  (spec_half_swing AxX samples = 100 /\ spec_half_swing AxY samples = 200 /\
   spec_half_swing AxZ samples = 100) /\
  mag_scale_counts (tracked s) = mkV3 200 300 200 /\
  (Fl.within (1166 # 1000) (1167 # 1000) (vx scale) = true /\
   Fl.within (777 # 1000) (778 # 1000) (vy scale) = true /\
   Fl.within (1166 # 1000) (1167 # 1000) (vz scale) = true) /\
  (Fl.within (13325 # 10000) (13335 # 10000) (vx scale) = false /\
   Fl.within (6665 # 10000) (6675 # 10000) (vy scale) = false /\
   Fl.within (13325 # 10000) (13335 # 10000) (vz scale) = false) /\
  (vx scale <> spec_soft_iron_scale AxX samples /\
   vy scale <> spec_soft_iron_scale AxY samples /\
   vz scale <> spec_soft_iron_scale AxZ samples).
Proof.
  cbv zeta.
  match goal with
  | |- context [delivered_samples ?s] =>
      assert (delivered_samples s =
                mkV3 200 200 200
                  :: concat (repeat [mkV3 400 600 400; mkV3 200 200 200] 63)) as ->
        by (vm_compute; reflexivity);
      assert (tracked s =
                mkMagTrack (mkV3 400 600 400) (mkV3 0 0 0) (mkV3 200 200 200)) as Ht
        by (vm_compute; reflexivity);
      pose proof (calibrateMagnetometer_self s) as Hself
  end.
  rewrite Ht in *. rewrite Hself. cbn [_magScale set_magScale].
  split; [reflexivity|].
  split; [repeat split; vm_compute; reflexivity|].
  split; [vm_compute; reflexivity|].
  split; [repeat split; vm_compute; reflexivity|].
  split; [repeat split; vm_compute; reflexivity|].
  split; [|split]; vm_compute; discriminate.
Qed.

(** The first read reports an overflow and every other read delivers
    (200, 200, 200): the midpoint of the observed raw counts is 200, but
    the (0, 0, 0) the buffer held at the first read is tracked as a
    sample and the bias the code computes is 100 counts. *)
Lemma calibrateMagnetometer_bias_counts_a_dropped_frame :
  let s := snd (initAK8963 MFS_16BITS M_8Hz
                  (Sim.start obj (first_dropped (Sim.mag_frame 200 200 200 0x10)
                                    (Sim.mag_frame 200 200 200 0x10)))) in
  let o := self s in
  let bias := _magBias (self (snd (calibrateMagnetometer s))) in
  let samples := delivered_samples s in
  samples = repeat (mkV3 200 200 200) 127 /\
  (observed_max AxX samples = 200 /\ observed_min AxX samples = 200 /\
   spec_midpoint AxX samples = 200) /\
  mag_bias_counts (tracked s) = mkV3 100 100 100 /\
  vx bias = Fl.mul (Fl.mul (Fl.of_int 100) (_mRes o)) (vx (_magCalibration o)) /\
  vx bias <> spec_hard_iron_bias AxX samples (_mRes o) (vx (_magCalibration o)).
Proof.
  cbv zeta.
  match goal with
  | |- context [delivered_samples ?s] =>
      assert (delivered_samples s = repeat (mkV3 200 200 200) 127) as ->
        by (vm_compute; reflexivity);
      assert (tracked s =
                mkMagTrack (mkV3 200 200 200) (mkV3 0 0 0) (mkV3 200 200 200)) as Ht
        by (vm_compute; reflexivity);
      pose proof (calibrateMagnetometer_self s) as Hself
  end.
  rewrite Ht in *. rewrite Hself. cbn [_magBias set_magScale set_magBias].
  split; [reflexivity|].
  split; [repeat split; vm_compute; reflexivity|].
  split; [vm_compute; reflexivity|].
  split; [vm_compute; reflexivity|].
  vm_compute. discriminate.
Qed.

(** An axis that never moves: its scale is an infinity. *)
Lemma calibrateMagnetometer_zero_swing_witness :
  let s := snd (initAK8963 MFS_16BITS M_8Hz
                  (Sim.start obj (swinging (Sim.mag_frame 50 200 100 0x10)
                                    (Sim.mag_frame 50 (-200) (-100) 0x10)
                                    (Sim.mag_frame 0 0 0 0x10)))) in
  running_max AxX (calibration_samples s) = running_min AxX (calibration_samples s) /\
  vx (_magScale (self (snd (calibrateMagnetometer s)))) = S754_infinity false.
Proof.
  intros s.
  assert (running_max AxX (calibration_samples s) = running_min AxX (calibration_samples s))
    as Heq by (vm_compute; reflexivity).
  split; [exact Heq|].
  pose proof (calibrateMagnetometer_zero_swing s AxX) as H. cbv zeta in H.
  destruct (H Heq) as (_ & _ & Hsc & _). cbn [v3_get] in Hsc.
  rewrite Hsc. vm_compute. reflexivity.
Defined.

Lemma calibrateMagnetometer_hard_iron_witness :
  let s := snd (initAK8963 MFS_16BITS M_8Hz
                  (Sim.start obj (swinging (Sim.mag_frame 100 150 7 0x10)
                                    (Sim.mag_frame (-100) 50 (-3) 0x10)
                                    (Sim.mag_frame 0 0 0 0x10)))) in
  let bias := _magBias (self (snd (calibrateMagnetometer s))) in
  vx bias = Fl.mul (Fl.mul (Fl.of_int 0) (_mRes (self s))) (vx (_magCalibration (self s))) /\
  vy bias = Fl.mul (Fl.mul (Fl.of_int 100) (_mRes (self s))) (vy (_magCalibration (self s))).
Proof.
  intros s bias. subst bias.
  pose proof (calibrateMagnetometer_hard_iron s) as H. cbv zeta in H.
  destruct H as (_ & _ & _ & Hb & H0 & H100 & _).
  pose proof (Hb AxX) as Hx. pose proof (Hb AxY) as Hy. cbn [v3_get] in Hx, Hy.
  rewrite (H0 AxX) in Hx by (vm_compute; reflexivity).
  rewrite (H100 AxY) in Hy by (vm_compute; reflexivity).
  split; assumption.
Defined.


(** * Further properties *)

(** ** Conversions of small integers *)

Lemma digits2_pos_size p : digits2_pos p = Pos.size p.
Proof. induction p; simpl; congruence. Qed.

Lemma digits_bound p : Z.pos p < 2 ^ 24 -> Z.pos (digits2_pos p) <= 24.
Proof.
  intros H. rewrite digits2_pos_size.
  pose proof (Pos.size_le p) as Hs.
  destruct (Z.le_gt_cases (Z.pos (Pos.size p)) 24) as [|Hgt]; [assumption|exfalso].
  apply Pos2Z.pos_le_pos in Hs. rewrite Pos2Z.inj_pow in Hs.
  assert (2 ^ 25 <= 2 ^ Z.pos (Pos.size p)) by (apply Z.pow_le_mono_r; lia).
  change (2 ^ 25) with 33554432 in *. change (2 ^ 24) with 16777216 in *. lia.
Qed.

Lemma digits2_pos_iter p k :
  Z.pos (digits2_pos (Pos.iter xO p k)) = Z.pos (digits2_pos p) + Z.pos k.
Proof.
  induction k as [|k IH] using Pos.peano_ind.
  - cbn [Pos.iter digits2_pos]. lia.
  - rewrite Pos.iter_succ. cbn [digits2_pos]. lia.
Qed.

Lemma pos_iter_xO p k : Z.pos (Pos.iter xO p k) = Z.pos p * 2 ^ Z.pos k.
Proof.
  induction k as [|k IH] using Pos.peano_ind.
  - cbn [Pos.iter]. change (2 ^ 1) with 2. lia.
  - rewrite Pos.iter_succ, Pos2Z.inj_xO, IH, Pos2Z.inj_succ, Z.pow_succ_r by lia. lia.
Qed.

(** A mantissa of exactly 24 bits with an exponent in range is a binary32
    number as it stands. *)
Lemma round_aux_exact sg mz ez :
  Z.pos (digits2_pos mz) = 24 -> -149 <= ez <= 104 ->
  binary_round_aux 24 128 sg (Z.pos mz) ez loc_Exact = S754_finite sg mz ez.
Proof.
  intros Hd He. unfold binary_round_aux, shr_fexp.
  cbn [Zdigits2 shr_record_of_loc]. rewrite Hd.
  replace (fexp 24 128 (24 + ez) - ez) with 0 by (unfold fexp, emin; lia).
  unfold shr at 1. cbn [shr_m loc_of_shr_record round_nearest_even Zdigits2]. rewrite Hd.
  replace (fexp 24 128 (24 + ez) - ez) with 0 by (unfold fexp, emin; lia).
  unfold shr. cbn [shr_m].
  replace (ez <=? 128 - 24) with true by (symmetry; apply Z.leb_le; lia).
  reflexivity.
Qed.

(** Rounding a mantissa of at most 24 bits to binary32 only shifts it. *)
Lemma round_small sg p :
  Z.pos p < 2 ^ 24 ->
  exists m e, binary_round 24 128 sg p 0 = S754_finite sg m e /\ e <= 0 /\
              Z.pos m = Z.pos p * 2 ^ (- e).
Proof.
  intros H. pose proof (digits_bound p H) as Hd.
  unfold binary_round, shl_align.
  replace (fexp 24 128 (Z.pos (digits2_pos p) + 0)) with (Z.pos (digits2_pos p) - 24)
    by (unfold fexp, emin; lia).
  destruct (Z.pos (digits2_pos p) - 24 - 0) as [|q|q] eqn:Eq; try lia.
  - exists p, 0. split; [apply round_aux_exact; lia|]. split; [lia|].
    change (2 ^ (- 0)) with 1. lia.
  - exists (Pos.iter xO p q), (Z.pos (digits2_pos p) - 24).
    split; [apply round_aux_exact; [rewrite digits2_pos_iter|]; lia|].
    split; [lia|]. rewrite pos_iter_xO. f_equal. f_equal. lia.
Qed.

(** An [int] below [2^24] in absolute value is converted to [float]
    exactly. *)
Lemma of_int_exact z :
  - 2 ^ 24 < z < 2 ^ 24 -> Qeq (Fl.to_Q (Fl.of_int z)) (inject_Z z).
Proof.
  intros Hz. unfold Fl.of_int, binary_normalize.
  destruct z as [|p|p]; [reflexivity| |].
  - destruct (round_small false p ltac:(lia)) as (m & e & -> & He & Hm).
    unfold Fl.to_Q. destruct (Z.leb_spec 0 e).
    + replace e with 0 in * by lia. unfold Qeq. cbn [Qnum Qden inject_Z].
      change (2 ^ (- 0)) with 1 in Hm. change (2 ^ 0) with 1. lia.
    + unfold Qeq. cbn [Qnum Qden inject_Z]. rewrite Z2Pos.id by (apply Z.pow_pos_nonneg; lia).
      lia.
  - destruct (round_small true p ltac:(lia)) as (m & e & -> & He & Hm).
    unfold Fl.to_Q. destruct (Z.leb_spec 0 e).
    + replace e with 0 in * by lia. unfold Qeq. cbn [Qnum Qden inject_Z].
      change (2 ^ (- 0)) with 1 in Hm. change (2 ^ 0) with 1. lia.
    + unfold Qeq. cbn [Qnum Qden inject_Z]. rewrite Z2Pos.id by (apply Z.pow_pos_nonneg; lia).
      lia.
Qed.

(** ** Transactions *)

Section Traces.
Context {D : Type} {T : Transport D} {R : Registers} {R2 : MoreRegisters}.

Lemma appends_ret {A} (a : A) : appends (D := D) [] (ret a).
Proof. intros s. cbn [ret snd]. rewrite app_nil_r. reflexivity. Qed.

Lemma appends_bind {A B} L1 L2 (m : M D A) (k : A -> M D B) :
  appends L1 m -> (forall a, appends L2 (k a)) -> appends (L1 ++ L2) (bind m k).
Proof. intros Hm Hk s. rewrite bind_eq, Hk, Hm, app_assoc. reflexivity. Qed.

Lemma appends_eq {A} L L' (m : M D A) : appends L m -> L = L' -> appends L' m.
Proof. intros H <-. exact H. Qed.

Lemma appends_read c a n : appends [OpRead c a n] (read_bytes c a n).
Proof. intros s. unfold read_bytes. destruct (dev_read c a n (dev s)). reflexivity. Qed.

Lemma appends_write c a v : appends [OpWrite c a (Int.u8 v)] (write_byte c a v).
Proof. intros s. reflexivity. Qed.

Lemma appends_delay ms : appends [OpDelay ms] (delay ms).
Proof. intros s. reflexivity. Qed.

Lemma appends_get_self : appends (D := D) [] get_self.
Proof. intros s. cbn [get_self snd]. rewrite app_nil_r. reflexivity. Qed.

Lemma appends_set_self o : appends (D := D) [] (set_self o).
Proof. intros s. cbn [set_self snd trace]. rewrite app_nil_r. reflexivity. Qed.

Lemma appends_for_loop {A} L n (body : A -> M D A) :
  (forall a, appends L (body a)) ->
  forall acc, appends (concat (repeat L n)) (for_loop n body acc).
Proof.
  intros Hb. induction n as [|n IH]; intros acc; cbn [for_loop repeat concat].
  - apply appends_ret.
  - apply appends_bind; [apply Hb | exact IH].
Qed.

Lemma appends_readMPURegister a : appends [OpRead MPU a 1] (readMPURegister a).
Proof.
  unfold readMPURegister, readMPURegisters.
  eapply appends_eq; [apply appends_bind; [apply appends_read | intros; apply appends_ret]|].
  reflexivity.
Qed.

Lemma appends_readAK8963Register a : appends [OpRead AK8963 a 1] (readAK8963Register a).
Proof.
  unfold readAK8963Register, readAK8963Registers.
  eapply appends_eq; [apply appends_bind; [apply appends_read | intros; apply appends_ret]|].
  reflexivity.
Qed.

End Traces.

(** Derives the transactions of a straight-line method. *)
Ltac trace_step :=
  first
    [ apply appends_ret
    | apply appends_write
    | apply appends_read
    | apply appends_delay
    | apply appends_get_self
    | apply appends_set_self
    | apply appends_readMPURegister
    | apply appends_readAK8963Register
    | eapply appends_bind;
      [ | let x := fresh "x" in
          intros x;
          match type of x with
          | (_ * _)%type => destruct x
          | _ => idtac
          end ] ].

Ltac trace_of := eapply appends_eq; [repeat trace_step | cbn [app]; try reflexivity].

Section TraceProperties.
Context {D : Type} {T : Transport D} {R : Registers} {R2 : MoreRegisters}.
Variable pow : spec_float -> spec_float -> spec_float.
Variable calibrate : M D unit.

Lemma appends_average200 : appends average_reads (average200 (D := D)).
Proof.
  unfold average200, average_reads.
  eapply appends_eq.
  - apply appends_bind.
    + apply (appends_for_loop [OpRead MPU ACCEL_XOUT_H 6; OpRead MPU GYRO_XOUT_H 6]).
      intros acc. unfold accumulate, read_axes, readMPURegisters. trace_of.
    + intros sums. apply appends_ret.
  - apply app_nil_r.
Qed.

Lemma appends_selfTest : appends selfTest_trace (selfTest pow).
Proof.
  unfold selfTest, selfTest_measure, selfTest_trace, writeMPURegister.
  eapply appends_eq.
  - repeat first [apply appends_average200 | trace_step].
  - cbn [app]. rewrite !app_nil_r. reflexivity.
Qed.

(** X1. Every run of [selfTest] issues the same 817 transactions, all on
    the MPU: five writes, 200 readings of the two sensors, two writes and
    a 25 ms delay, 200 readings again, two writes and a 25 ms delay, and
    the six reads of the self-test codes; it waits 50 ms in all. *)
Theorem selfTest_transactions (s : State D) :
  trace (snd (selfTest pow s)) = trace s ++ selfTest_trace /\
  length selfTest_trace = 817%nat /\
  total_delay selfTest_trace = 50 /\
  Forall (fun o => match o with
                   | OpRead c _ _ | OpWrite c _ _ => c = MPU
                   | OpDelay _ => True
                   end) selfTest_trace.
Proof.
  split; [apply appends_selfTest|]. split; [vm_compute; reflexivity|].
  split; [vm_compute; reflexivity|].
  unfold selfTest_trace, average_reads.
  repeat (apply Forall_app; split).
  all: try (repeat constructor).
  all: apply Forall_concat, Forall_forall; intros l Hl;
    apply list_elem_of_In, repeat_spec in Hl; subst l; repeat constructor.
Qed.

Lemma appends_readMagData dest :
  appends [OpRead AK8963 AK8963_XOUT_L 7] (readMagData (D := D) dest).
Proof.
  unfold readMagData, readAK8963Registers.
  eapply appends_eq.
  - apply appends_bind; [apply appends_read|].
    intros raw. destruct (Z.land (nth 6 raw 0) 8 =? 0); apply appends_ret.
  - reflexivity.
Qed.

Lemma appends_mag_sample m t : appends (sample_ops m) (mag_sample (D := D) m t).
Proof.
  unfold mag_sample, sample_ops.
  destruct m; cbn [Mmode_eqb when sample_delay].
  all: eapply appends_eq;
    [apply appends_bind; [apply appends_readMagData | intros temp; repeat trace_step]
    | reflexivity].
Qed.

(** X2. [calibrateMagnetometer] issues, for each of its 128 samples at
    8 Hz or 1500 samples at 100 Hz, one burst read of seven bytes from
    XOUT_L followed by a delay of 135 ms or 12 ms, and nothing else: it
    blocks for 17280 ms or 18000 ms, writes no register, and on a device
    that keeps its registers leaves every register as it was. *)
Theorem calibrateMagnetometer_transactions (s : State D) :
  let m := _mMode (self s) in
  let ops := concat (repeat (sample_ops m) (sample_count m)) in
  trace (snd (calibrateMagnetometer s)) = trace s ++ ops /\
  sample_count m = match m with M_8Hz => 128%nat | M_100Hz => 1500%nat end /\
  total_delay ops = match m with M_8Hz => 17280 | M_100Hz => 18000 end /\
  filter is_write (trace (snd (calibrateMagnetometer s))) = filter is_write (trace s) /\
  (forall (RF : RegisterFile D) c a,
     peek c a (dev (snd (calibrateMagnetometer s))) = peek c a (dev s)).
Proof.
  intros m ops.
  assert (forall X (obs : State D -> X),
            (forall o d tr, obs (mkState o d tr) = obs (mkState (self s) d tr)) ->
            quiet obs -> obs (snd (calibrateMagnetometer s)) = obs s) as Hobs.
  { intros X obs Hself Hq. unfold calibrateMagnetometer. rewrite !bind_eq.
    unfold get_self, set_self. cbn [fst snd self dev trace].
    rewrite Hself.
    match goal with
    | |- obs (mkState _ (dev ?x) (trace ?x)) = _ =>
        transitivity (obs x); [destruct x; cbn [dev trace]; symmetry; apply Hself|]
    end.
    apply (keeps_mag_loop obs Hq). }
  split; [|split; [|split; [|split]]].
  - unfold calibrateMagnetometer. rewrite !bind_eq.
    unfold get_self, set_self. cbn [fst snd self dev trace].
    apply (appends_for_loop (sample_ops m)). intros t. apply appends_mag_sample.
  - destruct m; reflexivity.
  - subst ops. destruct m; vm_compute; reflexivity.
  - apply (Hobs _ (fun s => filter is_write (trace s))); [reflexivity | apply quiet_writes].
  - intros RF c a.
    apply (Hobs _ (fun s => peek c a (dev s))); [reflexivity | apply quiet_peek].
Qed.

Lemma appends_reset (s : State D) :
  trace (snd (reset s)) = trace s ++ reset_trace (_passthru (self s)).
Proof.
  unfold reset. rewrite bind_eq. unfold get_self. cbn [fst snd].
  unfold reset_trace, reset_writes, writeMPURegister.
  destruct (_passthru (self s)); cbn [negb when].
  - assert (appends [OpWrite MPU PWR_MGMT_1 (Int.u8 0x80); OpDelay 100]
              (exec ret tt in exec write_byte MPU PWR_MGMT_1 0x80 in
               exec ret tt in delay (D := D) 100)) as H by trace_of.
    apply H.
  - assert (appends [OpWrite MPU USER_CTRL (Int.u8 0); OpWrite MPU PWR_MGMT_1 (Int.u8 0x80);
                     OpWrite MPU USER_CTRL (Int.u8 I2C_MST_EN); OpDelay 100]
              (exec write_byte MPU USER_CTRL 0 in exec write_byte MPU PWR_MGMT_1 0x80 in
               exec write_byte MPU USER_CTRL I2C_MST_EN in delay (D := D) 100)) as H
      by trace_of.
    apply H.
Qed.

Lemma reset_self (s : State D) : self (snd (reset s)) = self s.
Proof.
  unfold reset. rewrite bind_eq. unfold get_self. cbn [fst snd].
  destruct (_passthru (self s)); cbn [negb when]; rewrite !bind_eq; reflexivity.
Qed.

(** X3. When [runTests] returns ERROR_SELFTEST the device has been reset
    and reconfigured by the self-test and nothing more: the writes issued
    are the one or three writes of [reset] followed by the nine writes of
    [selfTest], and the object is as it was. *)
Theorem runTests_selftest_failure_writes (s : State D) :
  fst (runTests pow calibrate s) = ERROR_SELFTEST ->
  filter is_write (trace (snd (runTests pow calibrate s))) =
    filter is_write (trace s) ++ reset_writes (_passthru (self s)) ++ selfTest_writes /\
  self (snd (runTests pow calibrate s)) = self s.
Proof.
  rewrite runTests_eq. cbv zeta.
  assert (self (snd (getId s)) = self s) as Hself0
    by apply (keeps_readMPURegister _ quiet_self).
  assert (self (snd (reset (snd (getId s)))) = self s) as Hself1
    by (rewrite reset_self; exact Hself0).
  destruct (negb (fst (getId s) =? 113)); [discriminate|].
  destruct (negb (fst (selfTest pow (snd (reset (snd (getId s))))))).
  2:{ match goal with
      | |- context [if ?b then _ else _] => destruct b; discriminate
      end. }
  intros _. cbn [snd]. split.
  - rewrite selfTest_trace_writes, appends_reset, filter_app, Hself0.
    rewrite (keeps_readMPURegister _ quiet_writes WHO_AM_I s : 
               filter is_write (trace (snd (getId s))) = filter is_write (trace s)).
    rewrite <- app_assoc. f_equal. f_equal.
    unfold reset_trace. rewrite filter_app. cbn [filter is_write]. rewrite app_nil_r.
    unfold reset_writes. destruct (_passthru (self s)); reflexivity.
  - rewrite selfTest_eq. cbn [snd].
    rewrite (selfTest_measure_observed pow (fun s => self s) (fun _ _ _ o => o) quiet_self).
    + exact Hself1.
    + intros; reflexivity.
Qed.

Lemma average200_range (s : State D) :
  sums_bounded 32768 (fst (average200 s)).
Proof.
  unfold average200. rewrite bind_eq. cbn [fst ret].
  pose proof (average_sums_in_range 200 (mkV3 0 0 0, mkV3 0 0 0) s 0) as H.
  assert (sums_bounded 0 (mkV3 0 0 0, mkV3 0 0 0)) as H0
    by (unfold sums_bounded, v3_list; cbn [fst snd vx vy vz app];
        repeat (apply Forall_cons; split; [lia|]); apply Forall_nil_2).
  specialize (H H0). unfold sums_bounded in *.
  destruct (fst (for_loop 200 accumulate (mkV3 0 0 0, mkV3 0 0 0) s)) as [[a1 a2 a3] [g1 g2 g3]].
  unfold v3_list, v3_map in *. cbn [fst snd vx vy vz app] in *.
  repeat match goal with
         | Hx : Forall _ (_ :: _) |- _ => apply Forall_cons in Hx as [? Hx]
         end.
  unfold Int.div.
  repeat (apply Forall_cons; split;
          [match goal with
           | |- _ <= Z.quot ?x 200 <= _ =>
               pose proof (Z.quot_le_mono x 6553600 200); 
               pose proof (Z.quot_le_mono (-6553600) x 200);
               change (6553600 ÷ 200) with 32768 in *;
               change (-6553600 ÷ 200) with (-32768) in *; lia
           end|]).
  apply Forall_nil_2.
Qed.

(** X4. The sums of [selfTest] cannot overflow and its means are
    sensor counts: each of the twelve means lies in [-32768, 32768], so
    each difference of a self-test mean and a normal mean is at most
    65536 in absolute value and its conversion to [float] is exact. *)
Theorem selfTest_means_in_range (s : State D) :
  let m := fst (selfTest_measure pow s) in
  Forall (fun x => -32768 <= x <= 32768)
    (v3_list (aAvg m) ++ v3_list (gAvg m) ++ v3_list (aSTAvg m) ++ v3_list (gSTAvg m)) /\
  Forall (fun d => -65536 <= d <= 65536 /\ Qeq (Fl.to_Q (Fl.of_int d)) (inject_Z d))
    (v3_list (v3_zip Z.sub (aSTAvg m) (aAvg m))
     ++ v3_list (v3_zip Z.sub (gSTAvg m) (gAvg m))).
Proof.
  cbv zeta. unfold selfTest_measure.
  repeat (rewrite bind_eq;
          try match goal with
              | |- context [average200 ?s0] =>
                  let H := fresh "Hav" in
                  pose proof (average200_range s0) as H;
                  destruct (average200 s0) as [[[? ? ?] [? ? ?]] ?]
              end; cbn [fst snd]).
  unfold ret. cbn [fst aAvg gAvg aSTAvg gSTAvg].
  unfold sums_bounded, v3_list, v3_zip in *. cbn [fst snd vx vy vz app] in *.
  repeat match goal with
         | Hx : Forall _ (_ :: _) |- _ => apply Forall_cons in Hx as [? Hx]
         end.
  split.
  - repeat (apply Forall_cons; split; [lia|]). apply Forall_nil_2.
  - repeat (apply Forall_cons; split;
            [split; [lia | apply of_int_exact; change (2 ^ 24) with 16777216; lia]|]).
    apply Forall_nil_2.
Qed.

End TraceProperties.

(** ** Edge behaviour *)

Section EdgeProperties.
Context {D : Type} {T : Transport D} {R : Registers} {R2 : MoreRegisters}.
Variable pow : spec_float -> spec_float -> spec_float.

(** Bit [k] decides whether [c & 2^k] is zero. *)
Lemma land_pow2_testbit c k :
  0 <= k -> (Z.land c (2 ^ k) =? 0) = negb (Z.testbit c k).
Proof.
  intros Hk. destruct (Z.testbit c k) eqn:Hb; cbn [negb].
  - apply Z.eqb_neq. intros H0.
    assert (Z.testbit (Z.land c (2 ^ k)) k = true) as Ht
      by (rewrite Z.land_spec, Hb, Z.pow2_bits_true by lia; reflexivity).
    rewrite H0, Z.bits_0 in Ht. discriminate.
  - apply Z.eqb_eq. apply Z.bits_inj'. intros n Hn.
    rewrite Z.land_spec, Z.bits_0, Z.pow2_bits_eqb by lia.
    destruct (Z.eqb_spec k n) as [<-|Hne]; [rewrite Hb; reflexivity | apply andb_false_r].
Qed.

(** X6. [checkWakeOnMotion] is true exactly when bit 6 of the status byte
    it reads is set; reading the status is its only transaction. *)
Theorem checkWakeOnMotion_bit (s : State D) :
  fst (checkWakeOnMotion s) = Z.testbit (fst (readMPURegister INT_STATUS s)) 6 /\
  trace (snd (checkWakeOnMotion s)) = trace s ++ [OpRead MPU INT_STATUS 1] /\
  self (snd (checkWakeOnMotion s)) = self s.
Proof.
  unfold checkWakeOnMotion. rewrite bind_eq. cbn [fst snd ret]. split; [|split].
  - change 0x40 with (2 ^ 6). rewrite land_pow2_testbit by lia. apply negb_involutive.
  - apply appends_readMPURegister.
  - apply (keeps_readMPURegister _ quiet_self).
Qed.

Lemma pair16_bytes hi lo :
  0 <= hi < 256 -> 0 <= lo < 256 ->
  pair16 hi lo = 256 * hi + lo /\ 0 <= pair16 hi lo <= 65535.
Proof. intros Hh Hl. unfold pair16. rewrite lor_shiftl_8 by assumption. lia. Qed.

Lemma read_pair_spec a data (s : State D) :
  (2 <= length data)%nat ->
  let b := fst (readMPURegisters a 2 s) in
  let data' := fst (read_pair a data s) in
  nth 0 data' 0 = nth 0 b 0 /\ nth 1 data' 0 = nth 1 b 0 /\
  length data' = length data /\ drop 2 data' = drop 2 data /\
  snd (read_pair a data s) = snd (readMPURegisters a 2 s).
Proof.
  intros Hlen. unfold read_pair. rewrite bind_eq. cbn [fst snd ret].
  destruct data as [|d0 [|d1 data]]; cbn [length] in Hlen; try lia.
  repeat split.
Qed.

(** X7. [readAccelOffsets] reads each factory trim as an unsigned number:
    every entry of [accel_bias_reg] is [256 * high + low] of the two bytes
    read, between 0 and 65535 and never negative. Its transactions are
    three reads of two bytes, and of the array [data] only the first two
    bytes change. *)
Theorem readAccelOffsets_unsigned (data : list Z) (s : State D) :
  length data = 12%nat ->
  let r := fst (readAccelOffsets data s) in
  let s1 := snd (readMPURegisters XA_OFFSET_H 2 s) in
  let s2 := snd (readMPURegisters YA_OFFSET_H 2 s1) in
  let bx := fst (readMPURegisters XA_OFFSET_H 2 s) in
  let by_ := fst (readMPURegisters YA_OFFSET_H 2 s1) in
  let bz := fst (readMPURegisters ZA_OFFSET_H 2 s2) in
  snd r = mkV3 (256 * nth 0 bx 0 + nth 1 bx 0) (256 * nth 0 by_ 0 + nth 1 by_ 0)
               (256 * nth 0 bz 0 + nth 1 bz 0) /\
  (forall j, 0 <= v3_get j (snd r) <= 65535) /\
  length (fst r) = 12%nat /\ drop 2 (fst r) = drop 2 data /\
  trace (snd (readAccelOffsets data s)) =
    trace s ++ [OpRead MPU XA_OFFSET_H 2; OpRead MPU YA_OFFSET_H 2; OpRead MPU ZA_OFFSET_H 2].
Proof.
  intros Hlen r s1 s2 bx by_ bz. subst r. unfold readAccelOffsets.
  rewrite !bind_eq. cbn [fst snd ret].
  destruct (read_pair_spec XA_OFFSET_H data s ltac:(lia)) as (Hx0 & Hx1 & Hl1 & Hd1 & Hs1).
  cbv zeta in Hx0, Hx1, Hl1, Hd1. rewrite Hs1. fold s1.
  destruct (read_pair_spec YA_OFFSET_H (fst (read_pair XA_OFFSET_H data s)) s1 ltac:(lia))
    as (Hy0 & Hy1 & Hl2 & Hd2 & Hs2).
  cbv zeta in Hy0, Hy1, Hl2, Hd2. rewrite Hs2. fold s2.
  destruct (read_pair_spec ZA_OFFSET_H
              (fst (read_pair YA_OFFSET_H (fst (read_pair XA_OFFSET_H data s)) s1)) s2
              ltac:(lia)) as (Hz0 & Hz1 & Hl3 & Hd3 & Hs3).
  cbv zeta in Hz0, Hz1, Hl3, Hd3. rewrite Hs3.
  rewrite Hx0, Hx1, Hy0, Hy1, Hz0, Hz1. fold bx by_ bz.
  assert (forall i b a0 (s0 : State D), b = fst (readMPURegisters a0 2 s0) -> 0 <= nth i b 0 < 256)
    as Hbyte.
  { intros i b a0 s0 ->. unfold readMPURegisters.
    apply (read_bytes_spec MPU a0 2 s0). }
  assert (pair16 (nth 0 bx 0) (nth 1 bx 0) = 256 * nth 0 bx 0 + nth 1 bx 0 /\
          0 <= pair16 (nth 0 bx 0) (nth 1 bx 0) <= 65535) as [Ex Rx]
    by (apply pair16_bytes; eapply Hbyte; reflexivity).
  assert (pair16 (nth 0 by_ 0) (nth 1 by_ 0) = 256 * nth 0 by_ 0 + nth 1 by_ 0 /\
          0 <= pair16 (nth 0 by_ 0) (nth 1 by_ 0) <= 65535) as [Ey Ry]
    by (apply pair16_bytes; eapply Hbyte; reflexivity).
  assert (pair16 (nth 0 bz 0) (nth 1 bz 0) = 256 * nth 0 bz 0 + nth 1 bz 0 /\
          0 <= pair16 (nth 0 bz 0) (nth 1 bz 0) <= 65535) as [Ez Rz]
    by (apply pair16_bytes; eapply Hbyte; reflexivity).
  split; [rewrite Ex, Ey, Ez; reflexivity|].
  split; [intros [| |]; cbn [v3_get vx vy vz]; assumption|].
  split; [lia|]. split; [congruence|].
  unfold s2, s1, readMPURegisters.
  rewrite !(appends_read MPU _ 2 _), <- !app_assoc. reflexivity.
Qed.

Lemma write_byte_self c a v : keeps (fun s : State D => self s) (write_byte c a v).
Proof. intros s. reflexivity. Qed.

Lemma after_write_same c a v x : after_write c a c a v x = v.
Proof. unfold after_write. case_decide; congruence. Qed.

Lemma after_write_other c a c0 a0 v x :
  (c0, a0) <> (c, a) -> after_write c a c0 a0 v x = x.
Proof. intros Hne. unfold after_write. case_decide; congruence. Qed.

(** X8. [pushGyroBiases] issues six writes and nothing else, the first
    six bytes of [data] to the six gyroscope offset registers, high byte
    first; on a device that keeps its registers each of them then holds
    its byte and every other register holds what it held. *)
Theorem pushGyroBiases_registers (data : list Z) (s : State D) :
  let s' := snd (pushGyroBiases data s) in
  let regs := [XG_OFFSET_H; XG_OFFSET_L; YG_OFFSET_H; YG_OFFSET_L; ZG_OFFSET_H; ZG_OFFSET_L] in
  trace s' = trace s ++ gyro_bias_writes data /\
  self s' = self s /\
  (forall (RF : RegisterFile D), NoDup regs ->
     (forall i, (i < 6)%nat ->
        peek MPU (nth i regs 0) (dev s') = Int.u8 (nth i data 0)) /\
     (forall c a, c = AK8963 \/ ~ In a regs -> peek c a (dev s') = peek c a (dev s))).
Proof.
  intros s' regs. subst s'. split; [|split].
  - assert (appends (gyro_bias_writes data) (pushGyroBiases (D := D) data)) as H
      by (unfold pushGyroBiases, writeMPURegister; trace_of).
    apply H.
  - unfold pushGyroBiases, writeMPURegister. rewrite !bind_eq. reflexivity.
  - intros RF Hnd.
    assert (forall c a,
              peek c a (dev (snd (pushGyroBiases data s))) =
                after_write c a MPU ZG_OFFSET_L (Int.u8 (nth 5 data 0))
                  (after_write c a MPU ZG_OFFSET_H (Int.u8 (nth 4 data 0))
                  (after_write c a MPU YG_OFFSET_L (Int.u8 (nth 3 data 0))
                  (after_write c a MPU YG_OFFSET_H (Int.u8 (nth 2 data 0))
                  (after_write c a MPU XG_OFFSET_L (Int.u8 (nth 1 data 0))
                  (after_write c a MPU XG_OFFSET_H (Int.u8 (nth 0 data 0))
                     (peek c a (dev s)))))))) as Hpeek.
    { intros c a. unfold pushGyroBiases, writeMPURegister. rewrite !bind_eq.
      cbn [fst snd]. rewrite !peek_write_byte. reflexivity. }
    subst regs.
    repeat (apply NoDup_cons in Hnd as [? Hnd]).
    repeat match goal with
           | H : _ ∉ _ :: _ |- _ => apply not_elem_of_cons in H as [? ?]
           end.
    split.
    + intros i Hi. rewrite Hpeek.
      do 6 (destruct i as [|i]; [cbn [nth];
              rewrite ?after_write_same, ?after_write_other by congruence;
              rewrite ?after_write_same; reflexivity|]).
      lia.
    + intros c a Hca. rewrite Hpeek. cbn [In] in Hca.
      rewrite !after_write_other; [reflexivity|..];
        intros Heq; inversion Heq; subst; destruct Hca as [?|Hca];
          try discriminate; apply Hca; tauto.
Qed.

Lemma mres_distinct : mres MFS_14BITS <> mres MFS_16BITS.
Proof. vm_compute. discriminate. Qed.

Lemma getMres_eq mscale (s : State D) :
  getMres mscale s = (mres mscale, mkState (set_mRes (mres mscale) (self s)) (dev s) (trace s)).
Proof. unfold getMres. rewrite !bind_eq. destruct mscale; reflexivity. Qed.

(** X9. [getMres] is not a plain getter: it stores the resolution of the
    scale it is given in [_mRes], so the object stays consistent exactly
    when that scale is the configured one. It issues no transaction, and
    the 14-bit resolution is exactly four times the 16-bit one. *)
Theorem getMres_stores (mscale : Mscale_t) (s : State D) :
  let s' := snd (getMres mscale s) in
  fst (getMres mscale s) = mres mscale /\
  _mRes (self s') = mres mscale /\
  _mScale (self s') = _mScale (self s) /\
  trace s' = trace s /\ dev s' = dev s /\
  (consistent (self s') <-> mscale = _mScale (self s)) /\
  mres MFS_14BITS = Fl.mul (Fl.of_int 4) (mres MFS_16BITS).
Proof.
  cbv zeta. rewrite getMres_eq. cbn [fst snd self trace dev _mRes _mScale set_mRes].
  repeat split; try reflexivity.
  - unfold consistent. cbn [_mRes _mScale set_mRes]. intros H.
    destruct mscale, (_mScale (self s)); try reflexivity.
    + exfalso. apply mres_distinct. exact H.
    + exfalso. apply mres_distinct. symmetry. exact H.
  - intros ->. reflexivity.
Qed.

Lemma initMPU6500_self asc gsc srd pt (s : State D) :
  self (snd (initMPU6500 asc gsc srd pt s)) = self s.
Proof.
  unfold initMPU6500, writeMPURegister.
  destruct pt; cbn [when]; rewrite !bind_eq; cbn [fst snd];
    repeat first [rewrite (write_byte_self _ _ _ _)
                 | rewrite (keeps_delay _ quiet_self _ _)
                 | rewrite (keeps_readMPURegister _ quiet_self _ _)
                 | rewrite (keeps_ret (fun s : State D => self s) tt _)];
    reflexivity.
Qed.

Lemma initAK8963_self msc mm (s : State D) :
  same_but_calibration (self s) (self (snd (initAK8963 msc mm s))) /\
  _mMode (self (snd (initAK8963 msc mm s))) = mm /\
  _magCalibration (self (snd (initAK8963 msc mm s))) = fst (initAK8963 msc mm s).
Proof.
  unfold initAK8963, writeAK8963Register, readAK8963Registers.
  rewrite !bind_eq. unfold get_self, set_self. cbn [fst snd self ret].
  rewrite ?(write_byte_self _ _ _ _), ?(keeps_delay _ quiet_self _ _).
  cbn [self]. 
  repeat first [rewrite (write_byte_self _ _ _ _)
               | rewrite (keeps_delay _ quiet_self _ _)
               | rewrite (keeps_read_bytes _ quiet_self _ _ _ _)].
  unfold same_but_calibration. cbn. repeat split.
Qed.

(** X10. The constructor makes the resolution the one of the configured
    scale, and [reset], [selfTest], [initMPU6500], [initAK8963],
    [calibrateMagnetometer] and [readMagnetometer] keep it so: none of
    them assigns [_mRes] or [_mScale]. *)
Theorem resolution_consistent (s : State D) :
  (forall mscale mmode srd pt, consistent (self (snd (construct mscale mmode srd pt s)))) /\
  (consistent (self s) ->
   consistent (self (snd (reset s))) /\
   consistent (self (snd (selfTest pow s))) /\
   (forall asc gsc srd pt, consistent (self (snd (initMPU6500 asc gsc srd pt s)))) /\
   (forall msc mm, consistent (self (snd (initAK8963 msc mm s)))) /\
   consistent (self (snd (calibrateMagnetometer s))) /\
   (forall magCount, consistent (self (snd (readMagnetometer magCount s))))).
Proof.
  split.
  - intros mscale mmode srd pt. unfold construct. rewrite bind_eq, getMres_eq.
    rewrite !bind_eq. unfold get_self, set_self. cbn [fst snd self]. reflexivity.
  - intros Hc. repeat split.
    + rewrite reset_self. exact Hc.
    + rewrite selfTest_eq. cbn [snd].
      rewrite (selfTest_measure_observed pow (fun s => self s) (fun _ _ _ o => o) quiet_self);
        [exact Hc | intros; reflexivity].
    + intros. rewrite initMPU6500_self. exact Hc.
    + intros msc mm. destruct (initAK8963_self msc mm s) as ((_ & _ & Hr & Hs & _) & _).
      unfold consistent in *. rewrite Hr, Hs. exact Hc.
    + rewrite calibrateMagnetometer_self. exact Hc.
    + intros magCount. unfold readMagnetometer. rewrite !bind_eq.
      unfold get_self, ret. cbn [fst snd].
      rewrite (keeps_readMagData _ quiet_self magCount s). exact Hc.
Qed.

(** X11. When the magnetometer reports an overflow, [readMagnetometer]
    still returns a reading: it converts whatever its local array
    [magCount] happened to hold, the frame just read playing no part. *)
Theorem readMagnetometer_overflow_stale (magCount : V3 Z) (s : State D) :
  Z.testbit (nth 6 (fst (readAK8963Registers AK8963_XOUT_L 7 s)) 0) 3 = true ->
  forall j,
    v3_get j (fst (readMagnetometer magCount s)) =
      mag_physical (v3_get j magCount) (_mRes (self s)) (v3_get j (_magCalibration (self s)))
        (v3_get j (_magBias (self s))) (v3_get j (_magScale (self s))).
Proof.
  intros Hovf j. unfold readMagnetometer. rewrite !bind_eq.
  unfold get_self, ret. cbn [fst snd].
  rewrite (keeps_readMagData _ quiet_self magCount s), readMagData_fst. cbv zeta.
  rewrite Hovf. destruct j; reflexivity.
Qed.

(** X12. A sample dropped at the start of [calibrateMagnetometer] is
    counted as a sample of (0, 0, 0): when the first read reports an
    overflow, the first content of the sample buffer is its initial
    (0, 0, 0), so on every axis the tracked minimum is at most 0 and the
    tracked maximum at least 0, whatever the device delivers later. *)
Theorem calibrateMagnetometer_phantom_zero (s : State D) :
  Z.testbit (nth 6 (fst (readAK8963Registers AK8963_XOUT_L 7 s)) 0) 3 = true ->
  hd (mkV3 1 1 1) (calibration_samples s) = mkV3 0 0 0 /\
  forall j,
    running_min j (calibration_samples s) <= 0 <= running_max j (calibration_samples s) /\
    v3_get j (mag_min (tracked s)) <= 0 <= v3_get j (mag_max (tracked s)).
Proof.
  intros Hovf.
  assert (exists rest, calibration_samples s = mkV3 0 0 0 :: rest) as [rest Hs].
  { unfold calibration_samples.
    assert (exists n, sample_count (_mMode (self s)) = S n) as [n ->]
      by (destruct (_mMode (self s)); eexists; reflexivity).
    cbn [mag_observed]. eexists. f_equal.
    rewrite mag_sample_fst. cbv zeta. cbn [mag_temp mag_track_init].
    rewrite readMagData_fst. cbv zeta. rewrite Hovf. reflexivity. }
  rewrite Hs. split; [reflexivity|]. intros j.
  assert (running_min j (mkV3 0 0 0 :: rest) <= 0 <= running_max j (mkV3 0 0 0 :: rest)) as Hb.
  { unfold running_min, running_max.
    destruct (fold_max_bounds (map (v3_get j) (mkV3 0 0 0 :: rest)) (-32767)) as (_ & Hmx & _).
    destruct (fold_min_bounds (map (v3_get j) (mkV3 0 0 0 :: rest)) 32767) as (_ & Hmn & _).
    cbn [map] in *. apply Forall_cons in Hmx as [Hmx _]. apply Forall_cons in Hmn as [Hmn _].
    destruct j; cbn [v3_get vx vy vz] in *; lia. }
  split; [exact Hb|].
  destruct (tracked_extremes s j) as [-> ->]. rewrite Hs. exact Hb.
Qed.

End EdgeProperties.

(** ** Registers after the configuration methods *)

Lemma byte_forall (P : Z -> bool) :
  forallb P (seqZ 0 256) = true -> forall c, 0 <= c < 256 -> P c = true.
Proof.
  intros Hall c Hc. rewrite forallb_forall in Hall. apply Hall.
  apply list_elem_of_In, elem_of_seqZ. lia.
Qed.

(** Settles a decidable fact about a byte by trying the 256 bytes. *)
Ltac by_bytes c Hc :=
  refine (proj1 (bool_decide_eq_true _) _); revert c Hc;
  match goal with
  | |- forall c, _ -> @?B c = true => apply (byte_forall B)
  end.




Section RegisterProperties.
Context {D : Type} {T : Transport D} {R : Registers} {R2 : MoreRegisters}.
Context {RF : RegisterFile D} {RB : ReadBack D}.
Variable pow : spec_float -> spec_float -> spec_float.

Lemma read_bytes_value c a (s : State D) :
  plain c a = true -> nth 0 (fst (read_bytes c a 1 s)) 0 = Int.u8 (peek c a (dev s)).
Proof.
  intros Hp. unfold read_bytes.
  pose proof (read_plain c a 1 (dev s)) as H.
  destruct (dev_read c a 1 (dev s)) as [bytes d']. cbn [fst] in *.
  rewrite H.
  - cbn [seq map nth]. rewrite Z.add_0_r. reflexivity.
  - intros i Hi. replace i with 0%nat by lia. rewrite Z.add_0_r. exact Hp.
Qed.

Lemma readMPURegister_value a (s : State D) :
  plain MPU a = true -> fst (readMPURegister a s) = Int.u8 (peek MPU a (dev s)).
Proof.
  intros Hp. unfold readMPURegister, readMPURegisters. rewrite bind_eq. cbn [fst ret].
  apply read_bytes_value. exact Hp.
Qed.

Lemma readAK8963Register_value a (s : State D) :
  plain AK8963 a = true -> fst (readAK8963Register a s) = Int.u8 (peek AK8963 a (dev s)).
Proof.
  intros Hp. unfold readAK8963Register, readAK8963Registers. rewrite bind_eq. cbn [fst ret].
  apply read_bytes_value. exact Hp.
Qed.

Lemma peek_after_read c a a0 (s : State D) :
  peek c a (dev (snd (readMPURegister a0 s))) = peek c a (dev s).
Proof. apply (keeps_readMPURegister _ (quiet_peek c a)). Qed.

Lemma peek_after_readAK c a a0 (s : State D) :
  peek c a (dev (snd (readAK8963Register a0 s))) = peek c a (dev s).
Proof. apply (keeps_readAK8963Register _ (quiet_peek c a)). Qed.

Lemma peek_after_delay c a ms (s : State D) :
  peek c a (dev (snd (delay ms s))) = peek c a (dev s).
Proof. apply (keeps_delay _ (quiet_peek c a)). Qed.

Lemma peek_after_ret {A} (x : A) c a (s : State D) :
  peek c a (dev (snd (ret x s))) = peek c a (dev s).
Proof. reflexivity. Qed.

Lemma peek_mkState c a o (d : D) tr : peek c a (dev (mkState o d tr)) = peek c a d.
Proof. reflexivity. Qed.

End RegisterProperties.

(** Pushes [peek] through the steps of a straight-line method. *)
Ltac peek_steps :=
  repeat first
    [ rewrite peek_write_byte
    | rewrite peek_after_read
    | rewrite peek_after_readAK
    | rewrite peek_after_delay
    | rewrite peek_after_ret
    | rewrite peek_mkState
    | rewrite readMPURegister_value by assumption
    | rewrite readAK8963Register_value by assumption ].

Ltac settle_writes :=
  repeat first
    [ rewrite after_write_same
    | rewrite after_write_other by congruence ].

Ltac nodup_facts H :=
  repeat (apply NoDup_cons in H as [? H]);
  repeat match goal with
         | Hx : _ ∉ _ :: _ |- _ => apply not_elem_of_cons in Hx as [? ?]
         end.

Section ConfigurationProperties.
Context {D : Type} {T : Transport D} {R : Registers} {R2 : MoreRegisters}.
Context {RF : RegisterFile D} {RB : ReadBack D}.
Variable pow : spec_float -> spec_float -> spec_float.

(** The adjustment is the exact quotient, for every byte. *)
Lemma sensitivity_adjustment_exact b :
  0 <= b < 256 ->
  Qeq (Fl.to_Q (sensitivity_adjustment b)) ((b + 128) # 256) /\
  Fl.within (1 # 2) (383 # 256) (sensitivity_adjustment b) = true.
Proof.
  intros Hb.
  assert (Qeq_bool (Fl.to_Q (sensitivity_adjustment b)) ((b + 128) # 256)
          && Fl.within (1 # 2) (383 # 256) (sensitivity_adjustment b) = true) as H.
  { revert b Hb.
    apply (byte_forall (fun b => Qeq_bool (Fl.to_Q (sensitivity_adjustment b)) ((b + 128) # 256)
                                 && Fl.within (1 # 2) (383 # 256) (sensitivity_adjustment b))).
    vm_compute. reflexivity. }
  apply andb_prop in H as [H1 H2]. split; [apply Qeq_bool_eq; exact H1 | exact H2].
Qed.

Lemma initAK8963_fst msc mm (s : State D) :
  let rom := fst (readAK8963Registers AK8963_ASAX 3 (rom_state s)) in
  fst (initAK8963 msc mm s) =
    mkV3 (sensitivity_adjustment (nth 0 rom 0)) (sensitivity_adjustment (nth 1 rom 0))
         (sensitivity_adjustment (nth 2 rom 0)).
Proof. unfold initAK8963, rom_state. rewrite !bind_eq. reflexivity. Qed.

(** X15. The sensitivity adjustment [initAK8963] derives from a ROM byte
    [b] is exactly [(b + 128)/256], a number between 0.5 and 383/256; the
    three adjustments are returned and stored in [_magCalibration],
    [_mMode] becomes the mode given, and no other field of the object
    changes. *)
Theorem initAK8963_sensitivity msc mm (s : State D) :
  let cal := fst (initAK8963 msc mm s) in
  let rom := fst (readAK8963Registers AK8963_ASAX 3 (rom_state s)) in
  let o' := self (snd (initAK8963 msc mm s)) in
  (forall j,
     0 <= nth (axis_index j) rom 0 < 256 /\
     Qeq (Fl.to_Q (v3_get j cal)) ((nth (axis_index j) rom 0 + 128) # 256) /\
     Fl.within (1 # 2) (383 # 256) (v3_get j cal) = true) /\
  _magCalibration o' = cal /\ _mMode o' = mm /\ same_but_calibration (self s) o'.
Proof.
  intros cal rom o'. subst cal o'. split.
  - intros j. rewrite initAK8963_fst. cbv zeta. fold rom.
    assert (0 <= nth (axis_index j) rom 0 < 256) as Hb
      by apply (read_bytes_spec AK8963 AK8963_ASAX 3 (rom_state s)).
    split; [exact Hb|].
    destruct j; cbn [v3_get vx vy vz axis_index] in *;
      apply sensitivity_adjustment_exact; exact Hb.
  - destruct (initAK8963_self msc mm s) as (Hsame & Hm & Hc).
    split; [exact Hc|]. split; [exact Hm | exact Hsame].
Qed.

Lemma mode_byte_decodes msc mm :
  Z.land (mode_byte msc mm) 0x0F = Mmode_code mm /\
  Z.shiftr (mode_byte msc mm) 4 = Mscale_code msc /\
  Int.u8 (mode_byte msc mm) = mode_byte msc mm.
Proof. destruct msc, mm; repeat split. Qed.

(** X16. [initAK8963] powers the magnetometer down, enters the ROM access
    mode, reads three bytes, powers down again and writes the mode byte,
    waiting 10 ms after each write: 40 ms in all. The mode byte carries
    the scale in bit 4 and the mode in bits 3:0, so both can be read back
    from it, and on a device that keeps its registers CNTL holds it in the
    end while every other register is as before. *)
Theorem initAK8963_mode msc mm (s : State D) :
  let s' := snd (initAK8963 msc mm s) in
  trace s' = trace s ++ initAK8963_trace msc mm /\
  total_delay (initAK8963_trace msc mm) = 40 /\
  (Z.land (mode_byte msc mm) 0x0F = Mmode_code mm /\
   Z.shiftr (mode_byte msc mm) 4 = Mscale_code msc) /\
  peek AK8963 AK8963_CNTL (dev s') = mode_byte msc mm /\
  (forall c a, (c, a) <> (AK8963, AK8963_CNTL) -> peek c a (dev s') = peek c a (dev s)).
Proof.
  cbv zeta. destruct (mode_byte_decodes msc mm) as (Hm & Hs & Hu).
  split; [|split; [|split; [|split]]].
  - assert (appends (initAK8963_trace msc mm) (initAK8963 (D := D) msc mm)) as H.
    { unfold initAK8963, initAK8963_trace, writeAK8963Register, readAK8963Registers.
      eapply appends_eq; [repeat trace_step|].
      cbn [app]. fold (mode_byte msc mm). rewrite Hu. reflexivity. }
    apply H.
  - reflexivity.
  - split; assumption.
  - unfold initAK8963, writeAK8963Register, readAK8963Registers.
    rewrite !bind_eq. unfold get_self, set_self. cbn [fst snd dev].
    peek_steps. rewrite after_write_same. fold (mode_byte msc mm). exact Hu.
  - intros c a Hne. unfold initAK8963, writeAK8963Register, readAK8963Registers.
    rewrite !bind_eq. unfold get_self, set_self. cbn [fst snd dev].
    peek_steps. rewrite (keeps_read_bytes _ (quiet_peek c a)). peek_steps.
    rewrite !after_write_other by congruence. reflexivity.
Qed.

(** Names the byte read from a register and settles what is left by
    trying the 256 bytes. *)
Ltac by_register c a s :=
  let b := fresh "b" in
  let Hb := fresh "Hb" in
  pose proof (u8_range (peek c a (dev s))) as Hb;
  revert Hb; generalize (Int.u8 (peek c a (dev s))); intros b Hb;
  by_bytes b Hb.

(** X17. [gyroMagWake] can only add bits to the mode register: on a
    device that reads back CNTL, the register ends as its old byte or-ed
    with the mode, so no bit that was set is cleared, and a magnetometer
    running at 100 Hz stays at 100 Hz whichever mode is asked for.
    PWR_MGMT_1 ends at 0x01 and no other register changes. *)
Theorem gyroMagWake_registers (m : Mmode_t) (s : State D) :
  plain AK8963 AK8963_CNTL = true ->
  let old := Int.u8 (peek AK8963 AK8963_CNTL (dev s)) in
  let s' := snd (gyroMagWake m s) in
  let new := peek AK8963 AK8963_CNTL (dev s') in
  new = Z.lor old (Mmode_code m) /\
  Z.land new old = old /\
  (Z.land old 0x0F = Mmode_code M_100Hz -> Z.land new 0x0F = Mmode_code M_100Hz) /\
  peek MPU PWR_MGMT_1 (dev s') = 1 /\
  (forall c a, (c, a) <> (AK8963, AK8963_CNTL) -> (c, a) <> (MPU, PWR_MGMT_1) ->
     peek c a (dev s') = peek c a (dev s)).
Proof.
  intros Hp old s' new. subst old s' new.
  assert (peek AK8963 AK8963_CNTL (dev (snd (gyroMagWake m s))) =
          Z.lor (Int.u8 (peek AK8963 AK8963_CNTL (dev s))) (Mmode_code m)) as Hnew.
  { unfold gyroMagWake, writeAK8963Register, writeMPURegister. rewrite !bind_eq.
    cbn [fst snd]. peek_steps. settle_writes.
    by_register AK8963 AK8963_CNTL s. destruct m; vm_compute; reflexivity. }
  rewrite Hnew. split; [reflexivity|]. split; [|split; [|split]].
  - by_register AK8963 AK8963_CNTL s. destruct m; vm_compute; reflexivity.
  - by_register AK8963 AK8963_CNTL s. destruct m; vm_compute; reflexivity.
  - unfold gyroMagWake, writeAK8963Register, writeMPURegister. rewrite !bind_eq.
    cbn [fst snd]. peek_steps. settle_writes. reflexivity.
  - intros c a H1 H2. unfold gyroMagWake, writeAK8963Register, writeMPURegister.
    rewrite !bind_eq. cbn [fst snd]. peek_steps. settle_writes. reflexivity.
Qed.

(** X18. [gyroMagSleep] clears the mode bits 3:0 of CNTL and sets bit 4
    of PWR_MGMT_1, keeping their other bits. A following [gyroMagWake]
    brings CNTL back to what it was when its mode bits were the mode
    given, but not PWR_MGMT_1, which it sets to 0x01 whatever it held
    before the sleep. *)
Theorem sleep_then_wake_registers (m : Mmode_t) (s : State D) :
  plain AK8963 AK8963_CNTL = true -> plain MPU PWR_MGMT_1 = true ->
  let cntl := Int.u8 (peek AK8963 AK8963_CNTL (dev s)) in
  let pwr := Int.u8 (peek MPU PWR_MGMT_1 (dev s)) in
  let asleep := dev (snd (gyroMagSleep s)) in
  let awake := dev (snd (sleep_then_wake m s)) in
  (peek AK8963 AK8963_CNTL asleep = Z.land cntl 0xF0 /\
   peek MPU PWR_MGMT_1 asleep = Z.lor pwr 0x10) /\
  peek AK8963 AK8963_CNTL awake = Z.lor (Z.land cntl 0xF0) (Mmode_code m) /\
  (Z.land cntl 0x0F = Mmode_code m -> peek AK8963 AK8963_CNTL awake = cntl) /\
  peek MPU PWR_MGMT_1 awake = 1.
Proof.
  intros Hc Hp cntl pwr asleep awake. subst cntl pwr asleep awake.
  assert (peek AK8963 AK8963_CNTL (dev (snd (sleep_then_wake m s))) =
          Z.lor (Z.land (Int.u8 (peek AK8963 AK8963_CNTL (dev s))) 0xF0) (Mmode_code m))
    as Hawake.
  { unfold sleep_then_wake, gyroMagWake, gyroMagSleep, writeAK8963Register, writeMPURegister.
    rewrite !bind_eq. cbn [fst snd]. peek_steps. settle_writes.
    by_register AK8963 AK8963_CNTL s. destruct m; vm_compute; reflexivity. }
  split; [split|split; [|split]].
  - unfold gyroMagSleep, writeAK8963Register, writeMPURegister.
    rewrite !bind_eq. cbn [fst snd]. peek_steps. settle_writes.
    by_register AK8963 AK8963_CNTL s. vm_compute. reflexivity.
  - unfold gyroMagSleep, writeAK8963Register, writeMPURegister.
    rewrite !bind_eq. cbn [fst snd]. peek_steps. settle_writes.
    by_register MPU PWR_MGMT_1 s. vm_compute. reflexivity.
  - exact Hawake.
  - rewrite Hawake. by_register AK8963 AK8963_CNTL s. destruct m; vm_compute; reflexivity.
  - unfold sleep_then_wake, gyroMagWake, gyroMagSleep, writeAK8963Register, writeMPURegister.
    rewrite !bind_eq. cbn [fst snd]. peek_steps. settle_writes. reflexivity.
Qed.

(** X19. [accelWakeOnMotion] leaves, on a device that reads back its
    registers, the low four bits of ACCEL_CONFIG2 at 1 with its high bits
    kept, INT_PIN_CFG at 0x12, INT_ENABLE at 0x41, MOT_DETECT_CTRL at
    0xC0, MOT_THR at 0x19 and LP_ACCEL_ODR at 0x02; PWR_MGMT_1 ends as its
    old byte with bits 5 (cycle) and 4 (gyroscope standby) set, and the
    magnetometer is powered down, the mode bits of CNTL being cleared. *)
Theorem accelWakeOnMotion_registers (s : State D) :
  plain MPU ACCEL_CONFIG2 = true -> plain MPU PWR_MGMT_1 = true ->
  plain AK8963 AK8963_CNTL = true -> NoDup wake_on_motion_registers ->
  let before c a := Int.u8 (peek c a (dev s)) in
  let after c a := peek c a (dev (snd (accelWakeOnMotion s))) in
  (Z.land (after MPU ACCEL_CONFIG2) 0x0F = 1 /\
   Z.land (after MPU ACCEL_CONFIG2) 0xF0 = Z.land (before MPU ACCEL_CONFIG2) 0xF0) /\
  (after MPU INT_PIN_CFG = 0x12 /\ after MPU INT_ENABLE = 0x41 /\
   after MPU MOT_DETECT_CTRL = 0xC0 /\ after MPU MOT_THR = 0x19 /\
   after MPU LP_ACCEL_ODR = 0x02) /\
  after MPU PWR_MGMT_1 = Z.lor (before MPU PWR_MGMT_1) 0x30 /\
  after AK8963 AK8963_CNTL = Z.land (before AK8963 AK8963_CNTL) 0xF0.
Proof.
  intros Ha2 Hp Hc Hnd before after. subst before after. cbv beta.
  unfold wake_on_motion_registers in Hnd. nodup_facts Hnd.
  unfold accelWakeOnMotion, gyroMagSleep, writeAK8963Register, writeMPURegister.
  rewrite !bind_eq. cbn [fst snd].
  split; [|split; [|split]].
  - peek_steps. settle_writes.
    by_register MPU ACCEL_CONFIG2 s. vm_compute. reflexivity.
  - repeat split; peek_steps; settle_writes; reflexivity.
  - peek_steps. settle_writes.
    by_register MPU PWR_MGMT_1 s. vm_compute. reflexivity.
  - peek_steps. settle_writes.
    by_register AK8963 AK8963_CNTL s. vm_compute. reflexivity.
Qed.

End ConfigurationProperties.

(** ** Registers after [initMPU6500], whatever the reset does *)

Section ResetRegisters.
Context {D : Type} {T : Transport D} {R : Registers} {RS : ResetFile D}.









End ResetRegisters.


Section ResetProperties.
Context {D : Type} {T : Transport D} {R : Registers} {RS : ResetFile D}.



End ResetProperties.

(** ** Runs of the other methods on the simulated device *)

(** On the device whose accelerometer responds 20% above its trim the
    self-test fails, and nothing but the reset and the self-test has
    written to the device. *)
Lemma runTests_selftest_failure_writes_witness :
  let r := runTests Ref.pow (ret tt) (Sim.start obj hot) in
  fst r = ERROR_SELFTEST /\
  filter is_write (trace (snd r)) = reset_writes false ++ selfTest_writes /\
  self (snd r) = obj.
Proof.
  assert (fst (runTests Ref.pow (ret tt) (Sim.start obj hot)) = ERROR_SELFTEST) as He
    by (vm_compute; reflexivity).
  pose proof (runTests_selftest_failure_writes Ref.pow (ret tt) (Sim.start obj hot) He) as H.
  cbv zeta. destruct H as [Hw Hs]. split; [exact He|]. split; [exact Hw | exact Hs].
Defined.

(** A trim of 0xFFFE, which is -2 as a 16-bit number, is read as 65534. *)
Lemma readAccelOffsets_unsigned_witness :
  let d := with_reg XA_OFFSET_H 0xFF (with_reg (XA_OFFSET_H + 1) 0xFE healthy) in
  snd (fst (readAccelOffsets (repeat 0 12) (Sim.start obj d))) = mkV3 65534 0 0.
Proof.
  intros d.
  pose proof (readAccelOffsets_unsigned (repeat 0 12) (Sim.start obj d) eq_refl) as H.
  cbv zeta in H. destruct H as (H & _). rewrite H. vm_compute. reflexivity.
Defined.

Lemma pushGyroBiases_registers_witness :
  let s' := snd (pushGyroBiases [1; 2; 3; 4; 5; 6; 0; 0; 0; 0; 0; 0] (Sim.start obj healthy)) in
  peek MPU ZG_OFFSET_L (dev s') = 6 /\ peek MPU WHO_AM_I (dev s') = 0x71.
Proof.
  intros s'. subst s'.
  pose proof (pushGyroBiases_registers [1; 2; 3; 4; 5; 6; 0; 0; 0; 0; 0; 0]
                (Sim.start obj healthy)) as H.
  cbv zeta in H. destruct H as (_ & _ & H).
  specialize (H Sim.register_file
                ltac:(refine (bool_decide_unpack _ _); vm_compute; exact I)).
  destruct H as [Hin Hout]. split.
  - pose proof (Hin 5%nat ltac:(lia)) as H5. cbn [nth] in H5.
    rewrite H5. vm_compute. reflexivity.
  - rewrite Hout.
    + vm_compute. reflexivity.
    + right. vm_compute. intuition discriminate.
Defined.

Lemma resolution_consistent_witness :
  consistent (self (snd (selfTest Ref.pow (Sim.start obj healthy)))) /\
  consistent (self (snd (calibrateMagnetometer (Sim.start obj healthy)))).
Proof.
  pose proof (resolution_consistent Ref.pow (Sim.start obj healthy)) as H.
  destruct H as [_ H]. specialize (H ltac:(reflexivity)).
  destruct H as (_ & Hs & _ & _ & Hc & _). split; [exact Hs | exact Hc].
Defined.

(** The frame (300, -2, 5) arrives with the overflow bit set: the reading
    returned is the conversion of the 7 the caller's array held. *)
Lemma readMagnetometer_overflow_stale_witness :
  let ovf := swinging (Sim.mag_frame 300 (-2) 5 0x18) (Sim.mag_frame 0 0 0 0x10)
               (Sim.mag_frame 0 0 0 0x10) in
  v3_get AxX (fst (readMagnetometer (mkV3 7 8 9) (Sim.start obj ovf))) =
    mag_physical 7 (_mRes obj) (Fl.of_int 1) (S754_zero false) (Fl.of_int 1).
Proof.
  intros ovf.
  assert (Z.testbit (nth 6 (fst (readAK8963Registers AK8963_XOUT_L 7 (Sim.start obj ovf))) 0) 3
          = true) as Hovf by (vm_compute; reflexivity).
  pose proof (readMagnetometer_overflow_stale (mkV3 7 8 9) (Sim.start obj ovf) Hovf AxX) as H.
  rewrite H. reflexivity.
Defined.

(** Every frame the magnetometer delivers holds 200 or more, the first
    one with the overflow bit set: the tracked minimum is still at most
    0. *)
Lemma calibrateMagnetometer_phantom_zero_witness :
  let s := snd (initAK8963 MFS_16BITS M_8Hz
                  (Sim.start obj (swinging (Sim.mag_frame 300 300 300 0x18)
                                    (Sim.mag_frame 200 200 200 0x10)
                                    (Sim.mag_frame 250 250 250 0x10)))) in
  hd (mkV3 1 1 1) (calibration_samples s) = mkV3 0 0 0 /\
  v3_get AxX (mag_min (tracked s)) <= 0 <= v3_get AxX (mag_max (tracked s)).
Proof.
  intros s.
  assert (Z.testbit (nth 6 (fst (readAK8963Registers AK8963_XOUT_L 7 s)) 0) 3 = true) as Hovf
    by (vm_compute; reflexivity).
  pose proof (calibrateMagnetometer_phantom_zero s Hovf) as H.
  destruct H as [Hhd H]. split; [exact Hhd|]. exact (proj2 (H AxX)).
Defined.


(** A magnetometer running at 100 Hz with 16 bits (CNTL = 0x16) and woken
    for 8 Hz keeps running at 100 Hz. *)
Lemma gyroMagWake_registers_witness :
  let s := Sim.start obj (with_ak_reg AK8963_CNTL 0x16 healthy) in
  peek AK8963 AK8963_CNTL (dev (snd (gyroMagWake M_8Hz s))) = 0x16.
Proof.
  intros s.
  pose proof (gyroMagWake_registers M_8Hz s eq_refl) as H.
  cbv zeta in H. destruct H as (H & _). rewrite H. vm_compute. reflexivity.
Defined.

(** PWR_MGMT_1 holds 0x09 before the sleep and 0x01 after the wake. *)
Lemma sleep_then_wake_registers_witness :
  let s := Sim.start obj (with_reg PWR_MGMT_1 0x09 (with_ak_reg AK8963_CNTL 0x16 healthy)) in
  peek AK8963 AK8963_CNTL (dev (snd (gyroMagSleep s))) = 0x10 /\
  peek MPU PWR_MGMT_1 (dev (snd (gyroMagSleep s))) = 0x19 /\
  peek AK8963 AK8963_CNTL (dev (snd (sleep_then_wake M_100Hz s))) = 0x16 /\
  peek MPU PWR_MGMT_1 (dev (snd (sleep_then_wake M_100Hz s))) = 0x01.
Proof.
  intros s.
  pose proof (sleep_then_wake_registers M_100Hz s eq_refl eq_refl) as H.
  cbv zeta in H. destruct H as ((Hc & Hp) & _ & Hback & Hpw).
  split; [rewrite Hc; vm_compute; reflexivity|].
  split; [rewrite Hp; vm_compute; reflexivity|].
  split; [rewrite Hback; vm_compute; reflexivity | exact Hpw].
Defined.

Lemma accelWakeOnMotion_registers_witness :
  let s := Sim.start obj (with_reg PWR_MGMT_1 0x01 (with_ak_reg AK8963_CNTL 0x16 healthy)) in
  let after c a := peek c a (dev (snd (accelWakeOnMotion s))) in
  after MPU PWR_MGMT_1 = 0x31 /\ after AK8963 AK8963_CNTL = 0x10 /\
  after MPU INT_ENABLE = 0x41.
Proof.
  intros s after. subst after.
  pose proof (accelWakeOnMotion_registers s eq_refl eq_refl eq_refl
                ltac:(refine (bool_decide_unpack _ _); vm_compute; exact I)) as H.
  cbv zeta in H. destruct H as (_ & (_ & Hie & _) & Hp & Hc).
  split; [rewrite Hp; vm_compute; reflexivity|].
  split; [rewrite Hc; vm_compute; reflexivity | exact Hie].
Defined.
